(** * Bikram Sambat date engine of HamroNepal: embedding and properties

    The repository carries three copies of the BS/AD date engine:
    - the shared library [packages/bs-date] ([core.ts], [format.ts]);
      its [constants.ts] is not part of the sources, so the calendar table,
      the month-name table and the AD reference instant are parameters;
    - the web copy [lib/bs-date.ts] (table for 2080..2090);
    - the mobile copy [apps/mobile/src/lib/bs-date.ts] (table for 2080..2085).

    Conventions of the embedding.
    - A JavaScript string is the list of its UTF-16 code units
      ([split("")] splits into code units, [length] counts them).
    - A [Date] that a function takes is its time value, an integer number of
      milliseconds since the epoch (a [Z]); a [Date] that [bsToAD] builds is
      an [option Z], [None] for an invalid [Date].
    - Numbers that the code only uses as integers are [Z]; [Math.floor(a / b)]
      for a positive [b] is [a / b] on [Z]; [String(n)] prints the Number
      that holds [n], with the digits ECMAScript prescribes.
    - The time zone of the process is a parameter: the two offset functions
      that ECMAScript leaves to the platform, [LocalTZA(t, true)] and
      [LocalTZA(t, false)].  [Date.prototype.setDate] works on local time
      and clips the result to the range of time values.
    - [while] loops carry a fuel argument; running out of fuel is the outcome
      [Fuel], and reading [undefined] into arithmetic is the outcome [NaN]. *)

From Stdlib Require Import ZArith NArith List Lia Decimal DecimalN DecimalZ.
From stdpp Require Import base option list gmap.

Local Open Scope Z_scope.

(** ** JavaScript strings and numbers *)

Abbreviation jsstring := (list N).

(** The code units '0'..'9'. *)
Definition is_ascii_digit (c : N) : bool := ((48 <=? c) && (c <=? 57))%N.

(** The code units of the glyphs U+0966..U+096F. *)
Definition is_nepali_digit (c : N) : Prop := (2406 <= c <= 2415)%N.

(** [parseInt(char, 10)] on a one-code-unit string: the digit value for
    '0'..'9', NaN ([None]) for every other code unit. *)
Definition parseInt (char : N) : option N :=
  if is_ascii_digit char then Some (char - 48)%N else None.

Fixpoint uint_chars (u : Decimal.uint) : jsstring :=
  match u with
  | Decimal.Nil => []
  | Decimal.D0 u => 48%N :: uint_chars u
  | Decimal.D1 u => 49%N :: uint_chars u
  | Decimal.D2 u => 50%N :: uint_chars u
  | Decimal.D3 u => 51%N :: uint_chars u
  | Decimal.D4 u => 52%N :: uint_chars u
  | Decimal.D5 u => 53%N :: uint_chars u
  | Decimal.D6 u => 54%N :: uint_chars u
  | Decimal.D7 u => 55%N :: uint_chars u
  | Decimal.D8 u => 56%N :: uint_chars u
  | Decimal.D9 u => 57%N :: uint_chars u
  end.

(** The decimal expansion of an integer, '-' first when it is negative. *)
Definition decimal (n : Z) : jsstring :=
  match Z.to_int n with
  | Decimal.Pos u => uint_chars u
  | Decimal.Neg u => 45%N :: uint_chars u
  end.

(** The Number nearest to a non-negative integer [m]: 53 significant bits,
    ties to the even significand. *)
Definition round_to_double (m : Z) : Z :=
  let bits := Z.log2 m + 1 in
  if bits <=? 53 then m
  else
    let sh := bits - 53 in
    let q := Z.shiftr m sh in
    let r := m - Z.shiftl q sh in
    let half := Z.shiftl 1 (sh - 1) in
    let q := if (half <? r) || ((half =? r) && Z.odd q) then q + 1 else q in
    Z.shiftl q sh.

(** The [k]-digit integer [s] with [s * 10^e] nearest to [x] that rounds to
    the Number [x], if there is one. *)
Definition digits_candidate (x k e : Z) : option Z :=
  let p := 10 ^ e in
  let lo := x / p in
  let ok s :=
    (10 ^ (k - 1) <=? s) && (s <? 10 ^ k)
    && (round_to_double (s * p) =? x) in
  match ok lo, ok (lo + 1) with
  | true, false => Some lo
  | false, true => Some (lo + 1)
  | true, true =>
      let dlo := x - lo * p in
      let dhi := (lo + 1) * p - x in
      if dlo <? dhi then Some lo
      else if dhi <? dlo then Some (lo + 1)
      else if Z.even lo then Some lo else Some (lo + 1)
  | false, false => None
  end.

(** The shortest digits: the least [k], counting up from [k], with a
    [k]-digit [s] such that [s * 10^(n - k)] rounds to [x]. *)
Fixpoint shortest_digits (fuel : nat) (x n k : Z) : Z * Z :=
  match fuel with
  | O => (x, n)
  | S fuel =>
      match digits_candidate x k (n - k) with
      | Some s => (s, k)
      | None => shortest_digits fuel x n (k + 1)
      end
  end.

(** The number of decimal digits of a positive integer. *)
Fixpoint count_digits (fuel : nat) (x : Z) : Z :=
  match fuel with
  | O => 1
  | S fuel => if x <? 10 then 1 else 1 + count_digits fuel (x / 10)
  end.

Definition decimal_length (x : Z) : Z :=
  count_digits (Z.to_nat (Z.log2 x)) x.

(** [Number::toString(x)] for a Number [x] that is an integer above 2^53:
    the shortest digits, then zeros up to 21 digits, exponent notation
    beyond, "Infinity" from 2^1024 on. *)
Definition large_number_text (x : Z) : jsstring :=
  if 2 ^ 1024 <=? x then [73; 110; 102; 105; 110; 105; 116; 121]%N
  else
    let nd := decimal_length x in
    let '(s, k, n) :=
      if round_to_double (10 ^ nd) =? x then (1, 1, nd + 1)
      else let '(s, k) := shortest_digits (Z.to_nat nd) x nd 1 in (s, k, nd) in
    if n <=? 21 then decimal s ++ replicate (Z.to_nat (n - k)) 48%N
    else
      match decimal s with
      | [] => []
      | c :: rest =>
          (if k =? 1 then [c] else c :: 46%N :: rest)
          ++ [101; 43]%N ++ decimal (n - 1)
      end.

(** [String(n)] / [n.toString()] of the Number that holds the integer [n]
    (the nearest Number when [n] is not one): up to 2^53 in absolute value
    the decimal expansion, '-' first for a negative number. *)
Definition toString (n : Z) : jsstring :=
  if Z.abs n <=? 9007199254740992 then decimal n
  else (if n <? 0 then [45%N] else [])
       ++ large_number_text (round_to_double (Z.abs n)).

(** [s.padStart(targetLength, c)] for a one-code-unit pad string [c]. *)
Definition padStart (targetLength : nat) (c : N) (s : jsstring) : jsstring :=
  replicate (targetLength - length s)%nat c ++ s.

(** Modelled from the spec: [constants.ts] of the shared library is missing;
    the spec asks for "a fixed corresponding glyph in an ordered 10-element
    glyph table".  The glyphs are the Devanagari digits U+0966..U+096F, which
    both in-tree copies declare under this name and which the doc comments of
    [core.ts] print ([toNepaliDigits(2082)] is "२०८२"). *)
Definition NEPALI_DIGITS : list jsstring :=
  [ [2406%N]; [2407%N]; [2408%N]; [2409%N]; [2410%N];
    [2411%N]; [2412%N]; [2413%N]; [2414%N]; [2415%N] ].

(** [toNepaliDigits] on a string: split into code units, map, join.  An
    [undefined] element is joined as the empty string. *)
Definition toNepaliDigits (s : jsstring) : jsstring :=
  concat (map (fun char =>
                 match parseInt char with
                 | None => [char]
                 | Some digit => default [] (NEPALI_DIGITS !! N.to_nat digit)
                 end) s).

(** [toNepaliDigits] on a number: [String(num)] first. *)
Definition toNepaliDigitsNum (num : Z) : jsstring :=
  toNepaliDigits (toString num).

(** [a[i]] for an integer [i]: [undefined] ([None]) outside the array. *)
Definition js_index {A} (a : list A) (i : Z) : option A :=
  if i <? 0 then None else a !! Z.to_nat i.

(** ** Dates and outcomes *)

Record BSDate := mkBSDate { year : Z; month : Z; day : Z }.

(** Outcome of a computation with loops: a value, fuel exhausted, or
    [undefined] read where a number is needed. *)
Inductive run (A : Type) : Type :=
| Ret (a : A)
| Fuel
| NaN.
Arguments Ret {A} a.
Arguments Fuel {A}.
Arguments NaN {A}.

Definition run_bind {A B} (r : run A) (k : A -> run B) : run B :=
  match r with
  | Ret a => k a
  | Fuel => Fuel
  | NaN => NaN
  end.

Notation "'let*' x := r 'in' k" := (run_bind r (fun x => k))
  (at level 10, x pattern, r at level 100, k at level 200).

(** Modelled from the spec: [BS_REFERENCE] of the missing [constants.ts], the
    reference anchor, "day 1 of a table year": 2080-01-01 BS, as both in-tree
    copies declare it ("Reference date: 2080-01-01 BS = 2023-04-14 AD"). *)
Definition BS_REFERENCE : BSDate := {| year := 2080; month := 1; day := 1 |}.

(** Milliseconds per day, [1000 * 60 * 60 * 24]. *)
Definition msPerDay : Z := 1000 * 60 * 60 * 24.

(** ** Local time

    ECMAScript leaves the offset of local time from UTC to the platform:
    [LocalTZA(t, true)] for a UTC time value [t] and [LocalTZA(t, false)] for
    a local time value, both in milliseconds.  A time zone is this pair. *)
Record TimeZone := mkTimeZone {
  LocalTZA_utc : Z -> Z;
  LocalTZA_local : Z -> Z
}.

(** [LocalTime(t)] and [UTC(t)] of ECMAScript. *)
Definition LocalTime (tz : TimeZone) (t : Z) : Z := t + LocalTZA_utc tz t.

Definition UTC (tz : TimeZone) (t : Z) : Z := t - LocalTZA_local tz t.

(** [TimeClip]: a time value beyond 8.64e15 ms is NaN, an invalid [Date]
    ([None]). *)
Definition TimeClip (time : Z) : option Z :=
  if Z.abs time <=? 8640000000000000 then Some time else None.

(** [Day(LocalTime(t))]: the local calendar day a time value falls on,
    counted from 1970-01-01. *)
Definition calendar_day (tz : TimeZone) (t : Z) : Z :=
  LocalTime tz t / msPerDay.

(** [d.setDate(d.getDate() + n)] on the time value [t] of [d].  By
    ECMAScript, [setDate(dt)] takes [lt = LocalTime(t)], builds
    [MakeDate(MakeDay(YearFromTime(lt), MonthFromTime(lt), dt),
    TimeWithinDay(lt))] and stores [TimeClip(UTC(..))].  With
    [dt = DateFromTime(lt) + n] the day number [MakeDay] returns is
    [Day(lt) + n], so the local time built is [lt + n * msPerDay]. *)
Definition setDate_getDate_plus (tz : TimeZone) (t n : Z) : option Z :=
  TimeClip (UTC tz (LocalTime tz t + n * msPerDay)).

(** Lexicographic order on (year, month, day). *)
Definition bs_lt (a b : BSDate) : Prop :=
  year a < year b \/
  (year a = year b /\ month a < month b) \/
  (year a = year b /\ month a = month b /\ day a < day b).

Definition bs_le (a b : BSDate) : Prop := bs_lt a b \/ a = b.

(** ** The day-walk loops *)

(** The two loops of [adToBS] as the shared library and the web copy write
    them.  The state is [(diffDays, bsYear, bsMonth, bsDay)]; the month-length
    function may answer [undefined] (the web copy indexes unguarded). *)
Section AdToBSLoops.
Variable getDaysInBSMonth : Z -> Z -> option Z.

Fixpoint adToBS_forward (fuel : nat) (diffDays bsYear bsMonth bsDay : Z)
  : run (Z * BSDate) :=
  if 0 <? diffDays then
    match fuel with
    | O => Fuel
    | S fuel =>
        match getDaysInBSMonth bsYear bsMonth with
        | None => NaN
        | Some daysInMonth =>
            let remainingDaysInMonth := daysInMonth - bsDay in
            if diffDays <=? remainingDaysInMonth then
              adToBS_forward fuel 0 bsYear bsMonth (bsDay + diffDays)
            else
              let diffDays := diffDays - (remainingDaysInMonth + 1) in
              let bsMonth := bsMonth + 1 in
              if 12 <? bsMonth
              then adToBS_forward fuel diffDays (bsYear + 1) 1 1
              else adToBS_forward fuel diffDays bsYear bsMonth 1
        end
    end
  else Ret (diffDays, mkBSDate bsYear bsMonth bsDay).

Fixpoint adToBS_backward (fuel : nat) (diffDays bsYear bsMonth bsDay : Z)
  : run (Z * BSDate) :=
  if diffDays <? 0 then
    match fuel with
    | O => Fuel
    | S fuel =>
        let bsDay := bsDay - 1 in
        let diffDays := diffDays + 1 in
        if bsDay <? 1 then
          let bsMonth := bsMonth - 1 in
          let '(bsMonth, bsYear) :=
            if bsMonth <? 1 then (12, bsYear - 1) else (bsMonth, bsYear) in
          match getDaysInBSMonth bsYear bsMonth with
          | None => NaN
          | Some bsDay => adToBS_backward fuel diffDays bsYear bsMonth bsDay
          end
        else adToBS_backward fuel diffDays bsYear bsMonth bsDay
    end
  else Ret (diffDays, mkBSDate bsYear bsMonth bsDay).
End AdToBSLoops.

(** Loops over a month-length function that always answers a number: the
    two loops of [bsToAD] (shared library) and the two loops of the mobile
    copy's [adToBS]. *)
Section TotalLoops.
Variable getDaysInBSMonth : Z -> Z -> Z.

(** One turn of the forward loop of [bsToAD] on the cursor. *)
Definition next_day (c : BSDate) : BSDate :=
  let daysInMonth := getDaysInBSMonth (year c) (month c) in
  let day := day c + 1 in
  if daysInMonth <? day then
    let month := month c + 1 in
    if 12 <? month then mkBSDate (year c + 1) 1 1
    else mkBSDate (year c) month 1
  else mkBSDate (year c) (month c) day.

(** One turn of the backward loop of [bsToAD] on the cursor. *)
Definition prev_day (c : BSDate) : BSDate :=
  let day := day c - 1 in
  if day <? 1 then
    let month := month c - 1 in
    let '(month, year) :=
      if month <? 1 then (12, year c - 1) else (month, year c) in
    mkBSDate year month (getDaysInBSMonth year month)
  else mkBSDate (year c) (month c) day.

(** A date the calendar has: month 1..12, day within the month. *)
Definition valid_date (c : BSDate) : Prop :=
  1 <= month c <= 12 /\ 1 <= day c <= getDaysInBSMonth (year c) (month c).

(** The date [n] days away from the anchor, walking one day at a time. *)
Definition walk (n : Z) : BSDate :=
  if 0 <=? n then Nat.iter (Z.to_nat n) next_day BS_REFERENCE
  else Nat.iter (Z.to_nat (- n)) prev_day BS_REFERENCE.

Fixpoint bsToAD_forward (fuel : nat) (bsDate : BSDate) (diffDays : Z)
    (c : BSDate) : run Z :=
  if (year c <? year bsDate) || (month c <? month bsDate)
     || (day c <? day bsDate) then
    match fuel with
    | O => Fuel
    | S fuel => bsToAD_forward fuel bsDate (diffDays + 1) (next_day c)
    end
  else Ret diffDays.

Fixpoint bsToAD_backward (fuel : nat) (bsDate : BSDate) (diffDays : Z)
    (c : BSDate) : run Z :=
  if (year bsDate <? year c) || (month bsDate <? month c)
     || (day bsDate <? day c) then
    match fuel with
    | O => Fuel
    | S fuel => bsToAD_backward fuel bsDate (diffDays - 1) (prev_day c)
    end
  else Ret diffDays.

(** Mobile copy, forward: [bsDay] already holds [1 + diffDays]. *)
Fixpoint mobile_forward (fuel : nat) (bsYear bsMonth bsDay : Z)
  : run BSDate :=
  if getDaysInBSMonth bsYear bsMonth <? bsDay then
    match fuel with
    | O => Fuel
    | S fuel =>
        let bsDay := bsDay - getDaysInBSMonth bsYear bsMonth in
        let bsMonth := bsMonth + 1 in
        if 12 <? bsMonth then mobile_forward fuel (bsYear + 1) 1 bsDay
        else mobile_forward fuel bsYear bsMonth bsDay
    end
  else Ret (mkBSDate bsYear bsMonth bsDay).

(** Mobile copy, backward. *)
Fixpoint mobile_backward (fuel : nat) (bsYear bsMonth bsDay : Z)
  : run BSDate :=
  if bsDay <? 1 then
    match fuel with
    | O => Fuel
    | S fuel =>
        let bsMonth := bsMonth - 1 in
        let '(bsMonth, bsYear) :=
          if bsMonth <? 1 then (12, bsYear - 1) else (bsMonth, bsYear) in
        mobile_backward fuel bsYear bsMonth
          (bsDay + getDaysInBSMonth bsYear bsMonth)
    end
  else Ret (mkBSDate bsYear bsMonth bsDay).
End TotalLoops.

(** ** Fixed phrases of the relative-time functions *)

Definition phrase_just_now : jsstring := [2349; 2352; 2381; 2326; 2352; 2376]%N.
Definition phrase_minutes_ago : jsstring :=
  [32; 2350; 2367; 2344; 2375; 2335; 32; 2309; 2328; 2367]%N.
Definition phrase_hours_ago : jsstring :=
  [32; 2328; 2339; 2381; 2335; 2366; 32; 2309; 2328; 2367]%N.
Definition phrase_yesterday : jsstring := [2361; 2367; 2332; 2379]%N.
Definition phrase_days_ago : jsstring :=
  [32; 2342; 2367; 2344; 32; 2309; 2328; 2367]%N.
Definition phrase_last_week : jsstring :=
  [2327; 2340; 32; 2361; 2346; 2381; 2340; 2366]%N.
Definition phrase_weeks_ago : jsstring :=
  [32; 2361; 2346; 2381; 2340; 2366; 32; 2309; 2328; 2367]%N.
Definition phrase_last_month : jsstring :=
  [2327; 2340; 32; 2350; 2361; 2367; 2344; 2366]%N.
Definition phrase_months_ago : jsstring :=
  [32; 2350; 2361; 2367; 2344; 2366; 32; 2309; 2328; 2367]%N.
Definition phrase_now_mobile : jsstring := [2309; 2361; 2367; 2354; 2375]%N.

(** What a template literal prints for [undefined]. *)
Definition undefined_text : jsstring :=
  [117; 110; 100; 101; 102; 105; 110; 101; 100]%N.

(** ** The shared library: [packages/bs-date/src/core.ts], [format.ts] *)

Module Shared.

Inductive BSDateFormat := full | short | long.

Section Library.
(** The exports of the missing [constants.ts]. *)
Variable BS_CALENDAR_DATA : gmap Z (list Z).
Variable BS_MONTHS : list jsstring.
Variable AD_REFERENCE : Z.

Definition defaultDays : list Z :=
  [31; 31; 32; 31; 31; 31; 30; 29; 30; 29; 30; 30].

Definition getDaysInBSMonth (year month : Z) : Z :=
  match BS_CALENDAR_DATA !! year with
  | Some row => default 30 (js_index row (month - 1))
  | None => default 30 (js_index defaultDays (month - 1))
  end.

Definition getDaysInBSYear (year : Z) : Z :=
  match BS_CALENDAR_DATA !! year with
  | Some row => foldl Z.add 0 row
  | None => 365
  end.

Definition adToBS (fuel : nat) (adDate : Z) : run BSDate :=
  let diffTime := adDate - AD_REFERENCE in
  let diffDays := diffTime / msPerDay in
  let lookup := fun y m => Some (getDaysInBSMonth y m) in
  let* st :=
    (if 0 <=? diffDays
     then adToBS_forward lookup fuel diffDays
            (year BS_REFERENCE) (month BS_REFERENCE) (day BS_REFERENCE)
     else adToBS_backward lookup fuel diffDays
            (year BS_REFERENCE) (month BS_REFERENCE) (day BS_REFERENCE)) in
  Ret (snd st).

(** The time zone of the process. *)
Variable tz : TimeZone.

(** The result is the time value of the returned [Date], [None] for an
    invalid [Date]. *)
Definition bsToAD (fuel : nat) (bsDate : BSDate) : run (option Z) :=
  let* diffDays :=
    (if (year BS_REFERENCE <? year bsDate)
        || ((year bsDate =? year BS_REFERENCE)
            && (month BS_REFERENCE <? month bsDate))
        || ((year bsDate =? year BS_REFERENCE)
            && (month bsDate =? month BS_REFERENCE)
            && (day BS_REFERENCE <=? day bsDate))
     then bsToAD_forward getDaysInBSMonth fuel bsDate 0 BS_REFERENCE
     else bsToAD_backward getDaysInBSMonth fuel bsDate 0 BS_REFERENCE) in
  Ret (setDate_getDate_plus tz AD_REFERENCE diffDays).

Definition formatBSDate (bsDate : BSDate) (format : BSDateFormat)
  : jsstring :=
  let monthName := default [] (js_index BS_MONTHS (month bsDate - 1)) in
  match format with
  | short =>
      toNepaliDigitsNum (year bsDate) ++ [45%N]
      ++ toNepaliDigits (padStart 2 48%N (toString (month bsDate)))
      ++ [45%N]
      ++ toNepaliDigits (padStart 2 48%N (toString (day bsDate)))
  | long =>
      monthName ++ [32%N] ++ toNepaliDigitsNum (day bsDate)
      ++ [44%N; 32%N] ++ toNepaliDigitsNum (year bsDate)
  | full =>
      toNepaliDigitsNum (day bsDate) ++ [32%N] ++ monthName ++ [32%N]
      ++ toNepaliDigitsNum (year bsDate)
  end.

(** [now] is the value of [new Date()] inside the call. *)
Definition getRelativeTimeNepali (fuel : nat) (now date : Z)
  : run jsstring :=
  let diffMs := now - date in
  if diffMs <? 0 then
    let* bs := adToBS fuel date in Ret (formatBSDate bs full)
  else
    let diffSecs := diffMs / 1000 in
    let diffMins := diffSecs / 60 in
    let diffHours := diffMins / 60 in
    let diffDays := diffHours / 24 in
    let diffWeeks := diffDays / 7 in
    let diffMonths := diffDays / 30 in
    if diffSecs <? 60 then Ret phrase_just_now
    else if diffMins <? 60
    then Ret (toNepaliDigitsNum diffMins ++ phrase_minutes_ago)
    else if diffHours <? 24
    then Ret (toNepaliDigitsNum diffHours ++ phrase_hours_ago)
    else if diffDays =? 1 then Ret phrase_yesterday
    else if diffDays <? 7
    then Ret (toNepaliDigitsNum diffDays ++ phrase_days_ago)
    else if diffWeeks =? 1 then Ret phrase_last_week
    else if diffWeeks <? 4
    then Ret (toNepaliDigitsNum diffWeeks ++ phrase_weeks_ago)
    else if diffMonths =? 1 then Ret phrase_last_month
    else if diffMonths <? 12
    then Ret (toNepaliDigitsNum diffMonths ++ phrase_months_ago)
    else let* bs := adToBS fuel date in Ret (formatBSDate bs full).
(** [year in BS_CALENDAR_DATA]. *)
Definition isValidBSYear (year : Z) : bool :=
  match BS_CALENDAR_DATA !! year with
  | Some _ => true
  | None => false
  end.

(** [adToBS(new Date())], with the value of [new Date()] as [now]. *)
Definition getCurrentBSDate (fuel : nat) (now : Z) : run BSDate :=
  adToBS fuel now.

Definition getCurrentBSDateString (fuel : nat) (now : Z)
    (format : BSDateFormat) : run jsstring :=
  let* bs := adToBS fuel now in Ret (formatBSDate bs format).

(** More exports of the missing [constants.ts]. *)
Variable BS_WEEKDAYS : list jsstring.
Variable AD_MONTHS_NEPALI : list jsstring.

(** The local calendar fields of a time value, which the platform's [Date]
    computes: [getDate()], [getMonth()], [getFullYear()], [getDay()]. *)
Variable getDate : Z -> Z.
Variable getMonth : Z -> Z.
Variable getFullYear : Z -> Z.
Variable getDay : Z -> Z.

Definition formatADDateNepali (adDate : Z) : jsstring :=
  let day := getDate adDate in
  let month := getMonth adDate in
  let year := getFullYear adDate in
  toNepaliDigitsNum day ++ [32%N]
  ++ default undefined_text (js_index AD_MONTHS_NEPALI month) ++ [32%N]
  ++ toNepaliDigitsNum year.

(** [undefined] ([None]) when the index is outside the table. *)
Definition getWeekdayNepali (date : Z) : option jsstring :=
  js_index BS_WEEKDAYS (getDay date).

Record DualDate := mkDualDate {
  bs : jsstring;
  ad : jsstring;
  bsShort : jsstring;
  weekday : option jsstring;
  relative : jsstring
}.

Definition formatDualDate (fuel : nat) (now date : Z) : run DualDate :=
  let adDate := date in
  let* bsDate := adToBS fuel adDate in
  let* rel := getRelativeTimeNepali fuel now date in
  Ret {| bs := formatBSDate bsDate full;
         ad := formatADDateNepali adDate;
         bsShort := formatBSDate bsDate short;
         weekday := getWeekdayNepali adDate;
         relative := rel |}.
End Library.

End Shared.

(** ** The web copy: [lib/bs-date.ts] *)

Module Web.

Inductive BSDateFormat := full | short.

Definition BS_MONTHS : list jsstring :=
  [ [2348; 2376; 2358; 2366; 2326]; [2332; 2375; 2336];
    [2309; 2360; 2366; 2352]; [2358; 2381; 2352; 2366; 2357; 2339];
    [2349; 2342; 2380]; [2309; 2360; 2379; 2332];
    [2325; 2366; 2352; 2381; 2340; 2367; 2325];
    [2350; 2306; 2360; 2367; 2352]; [2346; 2369; 2359];
    [2350; 2366; 2328]; [2347; 2366; 2327; 2369; 2344];
    [2330; 2376; 2340; 2381; 2352] ]%N.

Definition BS_CALENDAR_DATA : gmap Z (list Z) :=
  list_to_map
    [ (2080, [31; 32; 31; 32; 31; 30; 30; 30; 29; 30; 29; 31]);
      (2081, [31; 31; 32; 31; 31; 31; 30; 29; 30; 29; 30; 30]);
      (2082, [31; 31; 32; 32; 31; 30; 30; 29; 30; 29; 30; 30]);
      (2083, [31; 32; 31; 32; 31; 30; 30; 30; 29; 29; 30; 31]);
      (2084, [30; 32; 31; 32; 31; 30; 30; 30; 29; 30; 29; 31]);
      (2085, [31; 31; 32; 31; 31; 31; 30; 29; 30; 29; 30; 30]);
      (2086, [31; 31; 32; 32; 31; 30; 30; 29; 30; 29; 30; 30]);
      (2087, [31; 32; 31; 32; 31; 30; 30; 30; 29; 29; 30; 31]);
      (2088, [31; 31; 31; 32; 31; 31; 29; 30; 30; 29; 29; 31]);
      (2089, [31; 31; 32; 31; 31; 31; 30; 29; 30; 29; 30; 30]);
      (2090, [31; 31; 32; 32; 31; 30; 30; 29; 30; 29; 30; 30]) ].

(** Unguarded index: [undefined] for a month outside the row. *)
Definition getDaysInBSMonth (year month : Z) : option Z :=
  match BS_CALENDAR_DATA !! year with
  | Some row => js_index row (month - 1)
  | None => Some 30
  end.

Section Copy.
(** [new Date(2023, 3, 14)]: local midnight, so its time value depends on
    the time zone of the process. *)
Variable AD_REFERENCE : Z.

Definition adToBS (fuel : nat) (adDate : Z) : run BSDate :=
  let diffTime := adDate - AD_REFERENCE in
  let diffDays := diffTime / msPerDay in
  let* st := adToBS_forward getDaysInBSMonth fuel diffDays
               (year BS_REFERENCE) (month BS_REFERENCE) (day BS_REFERENCE) in
  let* st := adToBS_backward getDaysInBSMonth fuel (fst st)
               (year (snd st)) (month (snd st)) (day (snd st)) in
  Ret (snd st).

Definition formatBSDate (bsDate : BSDate) (format : BSDateFormat)
  : jsstring :=
  match format with
  | short =>
      toNepaliDigitsNum (year bsDate) ++ [45%N]
      ++ toNepaliDigits (padStart 2 48%N (toString (month bsDate)))
      ++ [45%N]
      ++ toNepaliDigits (padStart 2 48%N (toString (day bsDate)))
  | full =>
      toNepaliDigitsNum (day bsDate) ++ [32%N]
      ++ default undefined_text (js_index BS_MONTHS (month bsDate - 1))
      ++ [44%N; 32%N] ++ toNepaliDigitsNum (year bsDate)
  end.

Definition getRelativeTimeNepali (fuel : nat) (now date : Z)
  : run jsstring :=
  let diffMs := now - date in
  let diffMins := diffMs / (1000 * 60) in
  let diffHours := diffMs / (1000 * 60 * 60) in
  let diffDays := diffMs / (1000 * 60 * 60 * 24) in
  if diffMins <? 1 then Ret phrase_just_now
  else if diffMins <? 60
  then Ret (toNepaliDigitsNum diffMins ++ phrase_minutes_ago)
  else if diffHours <? 24
  then Ret (toNepaliDigitsNum diffHours ++ phrase_hours_ago)
  else if diffDays <? 7
  then Ret (toNepaliDigitsNum diffDays ++ phrase_days_ago)
  else let* bs := adToBS fuel date in Ret (formatBSDate bs full).
Definition getCurrentBSDate (fuel : nat) (now : Z) : run BSDate :=
  adToBS fuel now.

Definition getCurrentBSDateString (fuel : nat) (now : Z)
    (format : BSDateFormat) : run jsstring :=
  let* bs := getCurrentBSDate fuel now in Ret (formatBSDate bs format).
End Copy.

End Web.

(** ** The mobile copy: [apps/mobile/src/lib/bs-date.ts] *)

Module Mobile.

Definition nepaliMonths : list jsstring :=
  [ [2348; 2376; 2358; 2366; 2326]; [2332; 2375; 2336];
    [2309; 2360; 2366; 2352]; [2360; 2366; 2313; 2344];
    [2349; 2342; 2380]; [2309; 2360; 2379; 2332];
    [2325; 2366; 2352; 2381; 2340; 2367; 2325];
    [2350; 2306; 2360; 2367; 2352]; [2346; 2369; 2359];
    [2350; 2366; 2328]; [2347; 2366; 2327; 2369; 2344];
    [2330; 2376; 2340] ]%N.

Definition bsMonthDays : gmap Z (list Z) :=
  list_to_map
    [ (2080, [31; 31; 32; 31; 31; 31; 30; 29; 30; 29; 30; 30]);
      (2081, [31; 31; 32; 31; 32; 30; 30; 29; 30; 29; 30; 30]);
      (2082, [30; 32; 31; 32; 31; 30; 30; 30; 29; 30; 29; 31]);
      (2083, [31; 31; 32; 31; 31; 31; 30; 29; 30; 29; 30; 30]);
      (2084, [31; 31; 32; 31; 32; 30; 30; 29; 30; 29; 30; 30]);
      (2085, [31; 32; 31; 32; 31; 30; 30; 30; 29; 29; 30; 31]) ].

(** [x || 30] on a possibly [undefined] number: 30 for [undefined] and 0. *)
Definition or30 (x : option Z) : Z :=
  match x with
  | Some v => if v =? 0 then 30 else v
  | None => 30
  end.

Definition getDaysInBSMonth (year month : Z) : Z :=
  match bsMonthDays !! year with
  | Some row => or30 (js_index row (month - 1))
  | None =>
      or30 (js_index [31; 31; 32; 31; 31; 31; 30; 29; 30; 29; 30; 30]
              (month - 1))
  end.

Definition getDaysInBSYear (year : Z) : Z :=
  match bsMonthDays !! year with
  | Some row => foldl Z.add 0 row
  | None => 365
  end.

Definition refBSDate : BSDate := {| year := 2080; month := 1; day := 1 |}.

Section Copy.
(** [new Date(2023, 3, 14)]: local midnight. *)
Variable refADDate : Z.

Definition adToBS (fuel : nat) (adDate : Z) : run BSDate :=
  let diffTime := adDate - refADDate in
  let diffDays := diffTime / msPerDay in
  if 0 <=? diffDays then
    mobile_forward getDaysInBSMonth fuel
      (year refBSDate) (month refBSDate) (day refBSDate + diffDays)
  else
    mobile_backward getDaysInBSMonth fuel
      (year refBSDate) (month refBSDate) (day refBSDate + diffDays).

Definition formatBSDate (bsDate : BSDate) : jsstring :=
  toNepaliDigitsNum (day bsDate) ++ [32%N]
  ++ default undefined_text (js_index nepaliMonths (month bsDate - 1))
  ++ [32%N] ++ toNepaliDigitsNum (year bsDate).

Definition formatRelativeTime (fuel : nat) (now date : Z) : run jsstring :=
  let diffMs := now - date in
  let diffMins := diffMs / (1000 * 60) in
  let diffHours := diffMs / (1000 * 60 * 60) in
  let diffDays := diffMs / (1000 * 60 * 60 * 24) in
  if diffMins <? 1 then Ret phrase_now_mobile
  else if diffMins <? 60
  then Ret (toNepaliDigitsNum diffMins ++ phrase_minutes_ago)
  else if diffHours <? 24
  then Ret (toNepaliDigitsNum diffHours ++ phrase_hours_ago)
  else if diffDays <? 7
  then Ret (toNepaliDigitsNum diffDays ++ phrase_days_ago)
  else let* bs := adToBS fuel date in Ret (formatBSDate bs).
Definition getCurrentBSDateString (fuel : nat) (now : Z) : run jsstring :=
  let* bs := adToBS fuel now in Ret (formatBSDate bs).
End Copy.

End Mobile.


(** ** Reading a short-style string back

    The spec's property 7 reads a short-style string back "by splitting on
    separators and reversing digit localization"; these definitions follow
    those words (the repository has no parser). *)

(** A glyph of [NEPALI_DIGITS] becomes the ASCII digit of its index; every
    other code unit stays. *)
Definition delocalizeDigit (c : N) : N :=
  match list_find (fun g => g = [c]) NEPALI_DIGITS with
  | Some (i, _) => (48 + N.of_nat i)%N
  | None => c
  end.

Definition fromNepaliDigits (s : jsstring) : jsstring :=
  map delocalizeDigit s.

(** [s.split(sep)] for a one-code-unit separator. *)
Fixpoint split_on (sep : N) (s : jsstring) : list jsstring :=
  match s with
  | [] => [[]]
  | c :: s' =>
      if (c =? sep)%N then [] :: split_on sep s'
      else match split_on sep s' with
           | f :: fs => (c :: f) :: fs
           | [] => [[c]]
           end
  end.

Definition digit_cons (c : N) (u : Decimal.uint) : option Decimal.uint :=
  match c with
  | 48%N => Some (Decimal.D0 u)
  | 49%N => Some (Decimal.D1 u)
  | 50%N => Some (Decimal.D2 u)
  | 51%N => Some (Decimal.D3 u)
  | 52%N => Some (Decimal.D4 u)
  | 53%N => Some (Decimal.D5 u)
  | 54%N => Some (Decimal.D6 u)
  | 55%N => Some (Decimal.D7 u)
  | 56%N => Some (Decimal.D8 u)
  | 57%N => Some (Decimal.D9 u)
  | _ => None
  end.

Fixpoint chars_uint (s : jsstring) : option Decimal.uint :=
  match s with
  | [] => Some Decimal.Nil
  | c :: s' =>
      match chars_uint s' with
      | Some u => digit_cons c u
      | None => None
      end
  end.

(** A non-empty run of ASCII digits, read as a decimal number. *)
Definition parseDecimal (s : jsstring) : option Z :=
  match s with
  | [] => None
  | _ => match chars_uint s with
         | Some u => Some (Z.of_uint u)
         | None => None
         end
  end.

(** Split on '-', expect three fields, undo the localization, read them. *)
Definition parseShort (s : jsstring) : option BSDate :=
  match split_on 45%N s with
  | [fy; fm; fd] =>
      match parseDecimal (fromNepaliDigits fy),
            parseDecimal (fromNepaliDigits fm),
            parseDecimal (fromNepaliDigits fd) with
      | Some y, Some m, Some d => Some (mkBSDate y m d)
      | _, _, _ => None
      end
  | _ => None
  end.

(** A field read as a Number, the way [Number(s)] and [parseInt(s, 10)]
    read a run of digits: the Number nearest to the decimal value. *)
Definition parseNumber (s : jsstring) : option Z :=
  match parseDecimal s with
  | Some v => Some (round_to_double v)
  | None => None
  end.

(** [parseShort] with the fields read as Numbers. *)
Definition parseShortNumber (s : jsstring) : option BSDate :=
  match split_on 45%N s with
  | [fy; fm; fd] =>
      match parseNumber (fromNepaliDigits fy),
            parseNumber (fromNepaliDigits fm),
            parseNumber (fromNepaliDigits fd) with
      | Some y, Some m, Some d => Some (mkBSDate y m d)
      | _, _, _ => None
      end
  | _ => None
  end.

(** ** Conditions on a calendar table *)

(** Every month length of every row is a positive number. *)
Definition table_positive (table : gmap Z (list Z)) : Prop :=
  map_Forall (fun _ row => Forall (fun x => 0 < x) row) table.

(** The day a time value falls on, counted from the day of [reference]. *)
Definition day_index (reference t : Z) : Z := (t - reference) / msPerDay.

(** [new Date(2023, 3, 14)] in Asia/Kathmandu (UTC+05:45):
    2023-04-13T18:15:00Z. *)
Definition AD_REFERENCE_Kathmandu : Z := 1681409700000.

(** ** Some time zones *)

(** A zone with one offset at all times. *)
Definition fixed_zone (offset : Z) : TimeZone :=
  mkTimeZone (fun _ => offset) (fun _ => offset).

(** The offset +05:45, which Asia/Kathmandu has had since 1986. *)
Definition zone_plus_0545 : TimeZone := fixed_zone 20700000.

(** A zone with daylight saving time: the offset [dst] during the listed
    periods (given as UTC time values, first instant in, last instant out),
    [std] otherwise.  A local time is in a period from the first wall-clock
    reading in [dst] to the last one; a reading that the change skips or
    repeats takes the offset from before the change. *)
Definition dst_zone (std dst : Z) (periods : list (Z * Z)) : TimeZone :=
  mkTimeZone
    (fun t =>
       if existsb (fun p => (fst p <=? t) && (t <? snd p)) periods
       then dst else std)
    (fun t =>
       if existsb (fun p => (fst p + dst <=? t) && (t <? snd p + dst)) periods
       then dst else std).

(** Australia/Sydney from April 2023 to October 2026: +10:00, and +11:00
    from the first Sunday of October to the first Sunday of April. *)
Definition Australia_Sydney : TimeZone :=
  dst_zone 36000000 39600000
    [ (1696089600000, 1712419200000);
      (1728144000000, 1743868800000);
      (1759593600000, 1775318400000) ].

(** America/New_York from November 2022 to November 2026: -05:00, and
    -04:00 from the second Sunday of March to the first Sunday of
    November. *)
Definition America_New_York : TimeZone :=
  dst_zone (-18000000) (-14400000)
    [ (1678604400000, 1699164000000);
      (1710054000000, 1730613600000);
      (1741503600000, 1762063200000);
      (1772953200000, 1793512800000) ].

(** [new Date(2023, 3, 14)] in Australia/Sydney: 2023-04-13T14:00:00Z. *)
Definition AD_REFERENCE_Sydney : Z := 1681394400000.

(** [new Date(2023, 3, 14)] in America/New_York: 2023-04-14T04:00:00Z. *)
Definition AD_REFERENCE_New_York : Z := 1681444800000.

(** * Properties *)

(** ** One-day steps and the walk from the anchor *)

Section WalkTheory.
Variable D : Z -> Z -> Z.
Hypothesis D_pos : forall y m, 1 <= m <= 12 -> 1 <= D y m.

Local Ltac zbool :=
  repeat (simpl in *;
          match goal with
          | |- context [?a <? ?b] => destruct (Z.ltb_spec a b)
          | |- context [?a <=? ?b] => destruct (Z.leb_spec a b)
          | |- context [?a =? ?b] => destruct (Z.eqb_spec a b)
          end);
  simpl in *.

Lemma next_day_valid c : valid_date D c -> valid_date D (next_day D c).
Proof.
  destruct c as [y m d]; unfold valid_date, next_day; simpl; intros [Hm Hd].
  zbool; repeat split; try lia.
  - specialize (D_pos (y + 1) 1); lia.
  - specialize (D_pos y (m + 1)); lia.
Qed.

Lemma prev_day_valid c : valid_date D c -> valid_date D (prev_day D c).
Proof.
  destruct c as [y m d]; unfold valid_date, prev_day; simpl; intros [Hm Hd].
  zbool; repeat split; try lia.
  - specialize (D_pos (y - 1) 12); lia.
  - specialize (D_pos y (m - 1)); lia.
Qed.

Lemma prev_next c : valid_date D c -> prev_day D (next_day D c) = c.
Proof.
  destruct c as [y m d]; unfold valid_date, next_day, prev_day; simpl.
  intros [Hm Hd].
  zbool; try lia; f_equal; try lia.
  - replace (y + 1 - 1) with y by lia. replace m with 12 in * by lia. lia.
  - replace (m + 1 - 1) with m by lia. lia.
Qed.

Lemma next_prev c : valid_date D c -> next_day D (prev_day D c) = c.
Proof.
  destruct c as [y m d]; unfold valid_date, next_day, prev_day; simpl.
  intros [Hm Hd].
  zbool; try lia; f_equal; lia.
Qed.

Lemma next_day_lt c : valid_date D c -> bs_lt c (next_day D c).
Proof.
  destruct c as [y m d]; unfold valid_date, next_day, bs_lt; simpl.
  intros [Hm Hd]. zbool; lia.
Qed.

Lemma bs_lt_trans a b c : bs_lt a b -> bs_lt b c -> bs_lt a c.
Proof. unfold bs_lt; lia. Qed.

Lemma bs_lt_irrefl a : ~ bs_lt a a.
Proof. unfold bs_lt; lia. Qed.

Lemma reference_valid : valid_date D BS_REFERENCE.
Proof.
  unfold valid_date; simpl. specialize (D_pos 2080 1); lia.
Qed.

Lemma iter_next_valid k c :
  valid_date D c -> valid_date D (Nat.iter k (next_day D) c).
Proof. induction k; simpl; auto using next_day_valid. Qed.

Lemma iter_prev_valid k c :
  valid_date D c -> valid_date D (Nat.iter k (prev_day D) c).
Proof. induction k; simpl; auto using prev_day_valid. Qed.

Lemma walk_valid n : valid_date D (walk D n).
Proof.
  unfold walk; destruct (0 <=? n);
    auto using iter_next_valid, iter_prev_valid, reference_valid.
Qed.

Lemma walk_nonneg n :
  0 <= n -> walk D n = Nat.iter (Z.to_nat n) (next_day D) BS_REFERENCE.
Proof. intros H; unfold walk. destruct (Z.leb_spec 0 n); [easy | lia]. Qed.

Lemma walk_nonpos n :
  n <= 0 -> walk D n = Nat.iter (Z.to_nat (- n)) (prev_day D) BS_REFERENCE.
Proof.
  intros H; unfold walk. destruct (Z.leb_spec 0 n); [| easy].
  replace n with 0 by lia; reflexivity.
Qed.

Lemma walk_succ n : walk D (n + 1) = next_day D (walk D n).
Proof.
  destruct (Z.le_gt_cases 0 n) as [Hn | Hn].
  - rewrite !walk_nonneg by lia.
    replace (Z.to_nat (n + 1)) with (S (Z.to_nat n)) by lia. reflexivity.
  - rewrite !walk_nonpos by lia.
    replace (Z.to_nat (- n)) with (S (Z.to_nat (- (n + 1)))) by lia.
    simpl. rewrite next_prev; auto using iter_prev_valid, reference_valid.
Qed.

Lemma walk_pred n : walk D (n - 1) = prev_day D (walk D n).
Proof.
  replace n with ((n - 1) + 1) at 2 by lia.
  rewrite walk_succ, prev_next; auto using walk_valid.
Qed.

Lemma walk_add_nat n (k : nat) :
  walk D (n + Z.of_nat k) = Nat.iter k (next_day D) (walk D n).
Proof.
  induction k as [| k IH].
  - simpl. f_equal; lia.
  - replace (n + Z.of_nat (S k)) with (n + Z.of_nat k + 1) by lia.
    rewrite walk_succ, IH. reflexivity.
Qed.

Lemma walk_sub_nat n (k : nat) :
  walk D (n - Z.of_nat k) = Nat.iter k (prev_day D) (walk D n).
Proof.
  induction k as [| k IH].
  - simpl. f_equal; lia.
  - replace (n - Z.of_nat (S k)) with (n - Z.of_nat k - 1) by lia.
    rewrite walk_pred, IH. reflexivity.
Qed.

Lemma walk_lt_step n (k : nat) :
  bs_lt (walk D n) (walk D (n + Z.of_nat (S k))).
Proof.
  induction k as [| k IH].
  - replace (n + Z.of_nat 1) with (n + 1) by lia.
    rewrite walk_succ. apply next_day_lt, walk_valid.
  - eapply bs_lt_trans; [exact IH |].
    replace (n + Z.of_nat (S (S k))) with (n + Z.of_nat (S k) + 1) by lia.
    rewrite walk_succ. apply next_day_lt, walk_valid.
Qed.

(** The walk is strictly increasing in the lexicographic order. *)
Lemma walk_lt_mono n m : n < m -> bs_lt (walk D n) (walk D m).
Proof.
  intros H.
  replace m with (n + Z.of_nat (S (Z.to_nat (m - n - 1)))) by lia.
  apply walk_lt_step.
Qed.

Lemma walk_inj n m : walk D n = walk D m -> n = m.
Proof.
  intros E. destruct (Z.lt_trichotomy n m) as [H | [H | H]]; auto.
  - apply walk_lt_mono in H. rewrite E in H. now apply bs_lt_irrefl in H.
  - apply walk_lt_mono in H. rewrite E in H. now apply bs_lt_irrefl in H.
Qed.

Lemma iter_next_within y m d (k : nat) :
  d + Z.of_nat k <= D y m ->
  Nat.iter k (next_day D) (mkBSDate y m d) = mkBSDate y m (d + Z.of_nat k).
Proof.
  induction k as [| k IH]; intros H.
  - simpl. f_equal; lia.
  - simpl. rewrite IH by lia. unfold next_day; simpl.
    destruct (Z.ltb_spec (D y m) (d + Z.of_nat k + 1)); [lia |].
    f_equal; lia.
Qed.

Lemma iter_prev_within y m d (k : nat) :
  1 <= d - Z.of_nat k ->
  Nat.iter k (prev_day D) (mkBSDate y m d) = mkBSDate y m (d - Z.of_nat k).
Proof.
  induction k as [| k IH]; intros H.
  - simpl. f_equal; lia.
  - simpl. rewrite IH by lia. unfold prev_day; simpl.
    destruct (Z.ltb_spec (d - Z.of_nat k - 1) 1); [lia |].
    f_equal; lia.
Qed.

(** The first day of every month is on the walk. *)
Lemma walk_month_start_up (k : nat) :
  exists n, walk D n =
    mkBSDate ((24960 + Z.of_nat k) / 12) ((24960 + Z.of_nat k) mod 12 + 1) 1.
Proof.
  induction k as [| k [n Hn]].
  - exists 0. reflexivity.
  - set (i := 24960 + Z.of_nat k) in *.
    replace (24960 + Z.of_nat (S k)) with (i + 1) by lia.
    assert (Hm : 1 <= i mod 12 + 1 <= 12)
      by (pose proof (Z.mod_pos_bound i 12); lia).
    pose proof (D_pos (i / 12) _ Hm) as HD.
    exists (n + Z.of_nat (Z.to_nat (D (i / 12) (i mod 12 + 1) - 1)) + 1).
    rewrite walk_succ, walk_add_nat, Hn, iter_next_within by lia.
    unfold next_day; simpl.
    destruct (Z.ltb_spec (D (i / 12) (i mod 12 + 1))
                (1 + Z.of_nat (Z.to_nat (D (i / 12) (i mod 12 + 1) - 1)) + 1));
      [| lia].
    destruct (Z.ltb_spec 12 (i mod 12 + 1 + 1)); f_equal;
      Z.div_mod_to_equations; lia.
Qed.

Lemma walk_month_start_down (k : nat) :
  exists n, walk D n =
    mkBSDate ((24960 - Z.of_nat k) / 12) ((24960 - Z.of_nat k) mod 12 + 1) 1.
Proof.
  induction k as [| k [n Hn]].
  - exists 0. reflexivity.
  - set (i := 24960 - Z.of_nat k) in *.
    replace (24960 - Z.of_nat (S k)) with (i - 1) by lia.
    assert (Hm : 1 <= (i - 1) mod 12 + 1 <= 12)
      by (pose proof (Z.mod_pos_bound (i - 1) 12); lia).
    pose proof (D_pos ((i - 1) / 12) _ Hm) as HD.
    set (L := D ((i - 1) / 12) ((i - 1) mod 12 + 1)) in *.
    exists (n - 1 - Z.of_nat (Z.to_nat (L - 1))).
    assert (E : prev_day D (walk D n) =
                mkBSDate ((i - 1) / 12) ((i - 1) mod 12 + 1) L).
    { rewrite Hn. unfold prev_day; simpl. subst L.
      destruct (Z.ltb_spec (i mod 12 + 1 - 1) 1).
      - assert (E1 : i / 12 - 1 = (i - 1) / 12)
          by (Z.div_mod_to_equations; lia).
        assert (E2 : 12 = (i - 1) mod 12 + 1)
          by (Z.div_mod_to_equations; lia).
        rewrite <- E1, <- E2. reflexivity.
      - assert (E1 : i / 12 = (i - 1) / 12)
          by (Z.div_mod_to_equations; lia).
        assert (E2 : i mod 12 + 1 - 1 = (i - 1) mod 12 + 1)
          by (Z.div_mod_to_equations; lia).
        rewrite <- E1, <- E2. reflexivity. }
    rewrite walk_sub_nat, walk_pred, E, iter_prev_within by lia.
    f_equal; lia.
Qed.

Lemma walk_month_start y m :
  1 <= m <= 12 -> exists n, walk D n = mkBSDate y m 1.
Proof.
  intros Hm. set (i := y * 12 + (m - 1)).
  assert (Ey : i / 12 = y) by (subst i; Z.div_mod_to_equations; lia).
  assert (Em : i mod 12 + 1 = m) by (subst i; Z.div_mod_to_equations; lia).
  destruct (Z.le_gt_cases 24960 i) as [H | H].
  - destruct (walk_month_start_up (Z.to_nat (i - 24960))) as [n Hn].
    replace (24960 + Z.of_nat (Z.to_nat (i - 24960))) with i in Hn by lia.
    rewrite Ey, Em in Hn. eauto.
  - destruct (walk_month_start_down (Z.to_nat (24960 - i))) as [n Hn].
    replace (24960 - Z.of_nat (Z.to_nat (24960 - i))) with i in Hn by lia.
    rewrite Ey, Em in Hn. eauto.
Qed.

(** Every valid date is on the walk: some day offset from the anchor
    reaches it. *)
Lemma walk_onto c : valid_date D c -> exists n, walk D n = c.
Proof.
  destruct c as [y m d]; intros [Hm Hd]; simpl in *.
  destruct (walk_month_start y m Hm) as [n Hn].
  exists (n + Z.of_nat (Z.to_nat (d - 1))).
  rewrite walk_add_nat, Hn, iter_next_within by lia. f_equal; lia.
Qed.
End WalkTheory.

(** ** The loops compute the walk *)

Section LoopTheory.
Variable D : Z -> Z -> Z.
Hypothesis D_pos : forall y m, 1 <= m <= 12 -> 1 <= D y m.

(** A month-length lookup that answers [D] on the months 1..12. *)
Variable lookup : Z -> Z -> option Z.
Hypothesis lookup_D : forall y m, 1 <= m <= 12 -> lookup y m = Some (D y m).

Lemma next_day_month_end y m :
  next_day D (mkBSDate y m (D y m)) =
  if 12 <? m + 1 then mkBSDate (y + 1) 1 1 else mkBSDate y (m + 1) 1.
Proof.
  unfold next_day; simpl.
  destruct (Z.ltb_spec (D y m) (D y m + 1)); [reflexivity | lia].
Qed.

Lemma adToBS_forward_iter fuel : forall n y m d,
  valid_date D (mkBSDate y m d) -> 0 <= n -> (Z.to_nat n <= fuel)%nat ->
  adToBS_forward lookup fuel n y m d =
  Ret (0, Nat.iter (Z.to_nat n) (next_day D) (mkBSDate y m d)).
Proof.
  induction fuel as [| fuel IH]; intros n y m d Hv Hn Hf.
  - replace n with 0 by lia. reflexivity.
  - simpl. destruct (Z.ltb_spec 0 n) as [Hpos | Hz];
      [| replace n with 0 by lia; reflexivity].
    destruct Hv as [Hm Hd]; simpl in Hm, Hd.
    rewrite (lookup_D y m Hm).
    destruct (Z.leb_spec n (D y m - d)) as [Hfit | Hover].
    + rewrite IH; [| split; simpl; lia | lia | lia].
      simpl. f_equal. f_equal.
      rewrite <- (Z2Nat.id n) at 1 by lia.
      symmetry. apply iter_next_within. lia.
    + set (n' := n - (D y m - d + 1)).
      assert (Hsplit : Z.to_nat n =
                       (Z.to_nat n' + S (Z.to_nat (D y m - d)))%nat)
        by (subst n'; lia).
      rewrite Hsplit, Nat.iter_add. simpl Nat.iter at 2.
      rewrite iter_next_within by lia.
      replace (d + Z.of_nat (Z.to_nat (D y m - d))) with (D y m) by lia.
      rewrite next_day_month_end.
      destruct (Z.ltb_spec 12 (m + 1)).
      * apply IH; [| subst n'; lia | subst n'; lia].
        split; simpl; [lia |]. specialize (D_pos (y + 1) 1); lia.
      * apply IH; [| subst n'; lia | subst n'; lia].
        split; simpl; [lia |]. specialize (D_pos y (m + 1)); lia.
Qed.

Lemma adToBS_backward_iter fuel : forall n y m d,
  valid_date D (mkBSDate y m d) -> n <= 0 -> (Z.to_nat (- n) <= fuel)%nat ->
  adToBS_backward lookup fuel n y m d =
  Ret (0, Nat.iter (Z.to_nat (- n)) (prev_day D) (mkBSDate y m d)).
Proof.
  induction fuel as [| fuel IH]; intros n y m d Hv Hn Hf.
  - replace n with 0 by lia. reflexivity.
  - simpl. destruct (Z.ltb_spec n 0) as [Hneg | Hz];
      [| replace n with 0 by lia; reflexivity].
    replace (Z.to_nat (- n)) with (Z.to_nat (- (n + 1)) + 1)%nat by lia.
    rewrite Nat.iter_add. simpl Nat.iter at 2.
    pose proof (prev_day_valid D D_pos _ Hv) as Hv'.
    destruct Hv as [Hm Hd]; simpl in Hm, Hd.
    unfold prev_day in *; simpl in *.
    destruct (Z.ltb_spec (d - 1) 1).
    + destruct (Z.ltb_spec (m - 1) 1).
      * rewrite lookup_D by lia. apply IH; [exact Hv' | lia | lia].
      * rewrite lookup_D by lia. apply IH; [exact Hv' | lia | lia].
    + apply IH; [exact Hv' | lia | lia].
Qed.

Lemma mobile_forward_iter fuel : forall y m d,
  1 <= m <= 12 -> 1 <= d -> (Z.to_nat (d - 1) <= fuel)%nat ->
  mobile_forward D fuel y m d =
  Ret (Nat.iter (Z.to_nat (d - 1)) (next_day D) (mkBSDate y m 1)).
Proof.
  induction fuel as [| fuel IH]; intros y m d Hm Hd Hf.
  - replace d with 1 by lia. simpl.
    destruct (Z.ltb_spec (D y m) 1); [specialize (D_pos y m); lia | easy].
  - simpl. pose proof (D_pos y m Hm) as HD.
    destruct (Z.ltb_spec (D y m) d) as [Hover | Hfit].
    + assert (Hsplit : Z.to_nat (d - 1) =
                (Z.to_nat (d - D y m - 1) + S (Z.to_nat (D y m - 1)))%nat)
        by lia.
      rewrite Hsplit, Nat.iter_add. simpl Nat.iter at 2.
      rewrite iter_next_within by lia.
      replace (1 + Z.of_nat (Z.to_nat (D y m - 1))) with (D y m) by lia.
      rewrite next_day_month_end.
      destruct (Z.ltb_spec 12 (m + 1)); apply IH; lia.
    + rewrite iter_next_within by lia. do 2 f_equal. lia.
Qed.

Lemma mobile_backward_iter fuel : forall y m d,
  1 <= m <= 12 -> d <= 1 -> (Z.to_nat (1 - d) <= fuel)%nat ->
  mobile_backward D fuel y m d =
  Ret (Nat.iter (Z.to_nat (1 - d)) (prev_day D) (mkBSDate y m 1)).
Proof.
  induction fuel as [| fuel IH]; intros y m d Hm Hd Hf.
  - replace d with 1 by lia. reflexivity.
  - simpl. destruct (Z.ltb_spec d 1) as [Hlow | Hok];
      [| replace d with 1 by lia; reflexivity].
    set (m' := if m - 1 <? 1 then 12 else m - 1).
    set (y' := if m - 1 <? 1 then y - 1 else y).
    assert (Hm' : 1 <= m' <= 12)
      by (subst m'; destruct (Z.ltb_spec (m - 1) 1); lia).
    pose proof (D_pos y' m' Hm') as HD.
    assert (Hp : prev_day D (mkBSDate y m 1) = mkBSDate y' m' (D y' m')).
    { unfold prev_day; simpl. subst y' m'.
      destruct (Z.ltb_spec (m - 1) 1); reflexivity. }
    replace (let '(bsMonth, bsYear) :=
               if m - 1 <? 1 then (12, y - 1) else (m - 1, y) in
             mobile_backward D fuel bsYear bsMonth (d + D bsYear bsMonth))
      with (mobile_backward D fuel y' m' (d + D y' m'))
      by (subst y' m'; destruct (m - 1 <? 1); reflexivity).
    destruct (Z.le_gt_cases 1 (d + D y' m')) as [Hstop | Hgo].
    + replace (Z.to_nat (1 - d)) with (Z.to_nat (- d) + 1)%nat by lia.
      rewrite Nat.iter_add. simpl Nat.iter at 2. rewrite Hp.
      rewrite iter_prev_within by lia.
      destruct fuel; simpl;
        (destruct (Z.ltb_spec (d + D y' m') 1); [lia |]);
        do 2 f_equal; lia.
    + rewrite IH by lia.
      assert (Hsplit : Z.to_nat (1 - d) =
                (Z.to_nat (1 - (d + D y' m'))
                 + (Z.to_nat (D y' m' - 1) + 1))%nat) by lia.
      rewrite Hsplit, !Nat.iter_add. simpl Nat.iter at 3. rewrite Hp.
      rewrite (iter_prev_within D y' m' (D y' m') (Z.to_nat (D y' m' - 1)))
        by lia.
      do 3 f_equal. lia.
Qed.

Lemma bs_lt_loop_test (c t : BSDate) :
  bs_lt c t ->
  (year c <? year t) || (month c <? month t) || (day c <? day t) = true.
Proof.
  unfold bs_lt. intros H.
  destruct (Z.ltb_spec (year c) (year t)), (Z.ltb_spec (month c) (month t)),
    (Z.ltb_spec (day c) (day t)); simpl; auto; lia.
Qed.

Lemma loop_test_refl (t : BSDate) :
  (year t <? year t) || (month t <? month t) || (day t <? day t) = false.
Proof. rewrite !Z.ltb_irrefl. reflexivity. Qed.

Lemma bsToAD_forward_walk n fuel : forall j acc,
  j <= n -> (Z.to_nat (n - j) <= fuel)%nat ->
  bsToAD_forward D fuel (walk D n) acc (walk D j) = Ret (acc + (n - j)).
Proof.
  induction fuel as [| fuel IH]; intros j acc Hj Hf.
  - replace j with n by lia. simpl. rewrite loop_test_refl.
    f_equal; lia.
  - simpl. destruct (Z.eq_dec j n) as [-> | Hne].
    + rewrite loop_test_refl. f_equal; lia.
    + rewrite bs_lt_loop_test by (apply walk_lt_mono; [exact D_pos | lia]).
      rewrite <- walk_succ by exact D_pos.
      rewrite IH by lia. f_equal; lia.
Qed.

Lemma bsToAD_backward_walk n fuel : forall j acc,
  n <= j -> (Z.to_nat (j - n) <= fuel)%nat ->
  bsToAD_backward D fuel (walk D n) acc (walk D j) = Ret (acc - (j - n)).
Proof.
  induction fuel as [| fuel IH]; intros j acc Hj Hf.
  - replace j with n by lia. simpl. rewrite loop_test_refl.
    f_equal; lia.
  - simpl. destruct (Z.eq_dec j n) as [-> | Hne].
    + rewrite loop_test_refl. f_equal; lia.
    + rewrite bs_lt_loop_test by (apply walk_lt_mono; [exact D_pos | lia]).
      rewrite <- walk_pred by exact D_pos.
      rewrite IH by lia. f_equal; lia.
Qed.
End LoopTheory.

(** ** The shared library's converter *)

Section SharedTheory.
Variable DATA : gmap Z (list Z).
Variable REF : Z.
Hypothesis DATA_pos : table_positive DATA.

#[local] Abbreviation D := (Shared.getDaysInBSMonth DATA).

Lemma js_index_pos (row : list Z) i v :
  Forall (fun x => 0 < x) row -> js_index row i = Some v -> 0 < v.
Proof.
  unfold js_index. intros HF. destruct (i <? 0); [discriminate |].
  intros Hl. exact (Forall_lookup_1 _ _ _ _ HF Hl).
Qed.

Lemma shared_days_pos y m : 1 <= Shared.getDaysInBSMonth DATA y m.
Proof.
  unfold Shared.getDaysInBSMonth.
  destruct (DATA !! y) as [row |] eqn:E.
  - pose proof (map_Forall_lookup_1 _ _ _ _ DATA_pos E) as HF.
    destruct (js_index row (m - 1)) eqn:E'; simpl; [| lia].
    apply (js_index_pos _ _ _ HF) in E'. lia.
  - destruct (js_index Shared.defaultDays (m - 1)) eqn:E'; simpl; [| lia].
    refine (_ (js_index_pos Shared.defaultDays _ _ _ E')); [lia |].
    unfold Shared.defaultDays. repeat constructor.
Qed.

Lemma shared_D_pos : forall y m, 1 <= m <= 12 -> 1 <= D y m.
Proof. intros y m _. apply shared_days_pos. Qed.

Lemma shared_adToBS_walk fuel x :
  (Z.to_nat (Z.abs (day_index REF x)) <= fuel)%nat ->
  Shared.adToBS DATA REF fuel x = Ret (walk D (day_index REF x)).
Proof.
  intros Hf. unfold Shared.adToBS. fold (day_index REF x).
  set (n := day_index REF x) in *.
  destruct (Z.leb_spec 0 n) as [Hn | Hn].
  - rewrite (adToBS_forward_iter D shared_D_pos); auto; try lia.
    + simpl. rewrite walk_nonneg by lia. reflexivity.
    + apply (reference_valid D shared_D_pos).
  - rewrite (adToBS_backward_iter D shared_D_pos); auto; try lia.
    + simpl. rewrite walk_nonpos by lia. reflexivity.
    + apply (reference_valid D shared_D_pos).
Qed.

Lemma reference_test_walk n :
  (year BS_REFERENCE <? year (walk D n))
  || ((year (walk D n) =? year BS_REFERENCE)
      && (month BS_REFERENCE <? month (walk D n)))
  || ((year (walk D n) =? year BS_REFERENCE)
      && (month (walk D n) =? month BS_REFERENCE)
      && (day BS_REFERENCE <=? day (walk D n)))
  = (0 <=? n).
Proof.
  destruct (Z.leb_spec 0 n) as [Hn | Hn].
  - assert (H : bs_le BS_REFERENCE (walk D n)).
    { destruct (Z.eq_dec n 0) as [-> | Hne]; [right; reflexivity |].
      left. apply (walk_lt_mono D shared_D_pos 0 n). lia. }
    destruct H as [H | <-]; [| reflexivity].
    unfold bs_lt in H.
    destruct (Z.ltb_spec (year BS_REFERENCE) (year (walk D n))),
      (Z.eqb_spec (year (walk D n)) (year BS_REFERENCE)),
      (Z.ltb_spec (month BS_REFERENCE) (month (walk D n))),
      (Z.eqb_spec (month (walk D n)) (month BS_REFERENCE)),
      (Z.leb_spec (day BS_REFERENCE) (day (walk D n))); simpl; auto; lia.
  - pose proof (walk_lt_mono D shared_D_pos n 0 Hn) as H.
    change (walk D 0) with BS_REFERENCE in H. unfold bs_lt in H.
    destruct (Z.ltb_spec (year BS_REFERENCE) (year (walk D n))),
      (Z.eqb_spec (year (walk D n)) (year BS_REFERENCE)),
      (Z.ltb_spec (month BS_REFERENCE) (month (walk D n))),
      (Z.eqb_spec (month (walk D n)) (month BS_REFERENCE)),
      (Z.leb_spec (day BS_REFERENCE) (day (walk D n))); simpl; auto; lia.
Qed.

(** [bsToAD] counts the days between the reference date and its argument
    and hands the count to [setDate]. *)
Lemma shared_bsToAD_walk tz fuel n :
  (Z.to_nat (Z.abs n) <= fuel)%nat ->
  Shared.bsToAD DATA REF tz fuel (walk D n) =
  Ret (setDate_getDate_plus tz REF n).
Proof.
  intros Hf. unfold Shared.bsToAD. rewrite reference_test_walk.
  change BS_REFERENCE with (walk D 0).
  destruct (Z.leb_spec 0 n) as [Hn | Hn].
  - rewrite (bsToAD_forward_walk D shared_D_pos) by lia.
    simpl. do 3 f_equal. lia.
  - rewrite (bsToAD_backward_walk D shared_D_pos) by lia.
    simpl. do 3 f_equal. lia.
Qed.

Lemma day_index_shift n : day_index REF (REF + n * msPerDay) = n.
Proof.
  unfold day_index. replace (REF + n * msPerDay - REF) with (n * msPerDay)
    by lia.
  apply Z.div_mul. discriminate.
Qed.

(** The day index of an instant that lies [delta] milliseconds after a
    whole number of days from the reference. *)
Lemma day_index_offset n delta :
  0 <= delta < msPerDay ->
  day_index REF (REF + n * msPerDay + delta) = n.
Proof.
  intros Hd. unfold day_index. symmetry.
  apply (Z.div_unique_pos _ _ n delta); [exact Hd | lia].
Qed.

Lemma day_index_offset_back n delta :
  - msPerDay <= delta < 0 ->
  day_index REF (REF + n * msPerDay + delta) = n - 1.
Proof.
  intros Hd. unfold day_index. symmetry.
  apply (Z.div_unique_pos _ _ (n - 1) (delta + msPerDay)); lia.
Qed.

Lemma day_index_floor x :
  REF + day_index REF x * msPerDay <= x
  < REF + day_index REF x * msPerDay + msPerDay.
Proof.
  unfold day_index.
  pose proof (Z.mod_pos_bound (x - REF) msPerDay eq_refl) as Hb.
  pose proof (Z.div_mod (x - REF) msPerDay ltac:(discriminate)) as He.
  lia.
Qed.
End SharedTheory.

(** ** The mobile copy's converter *)

Lemma mobile_table_positive : table_positive Mobile.bsMonthDays.
Proof. apply (bool_decide_unpack _). vm_compute. exact I. Qed.

Lemma or30_pos (row : list Z) i :
  Forall (fun x => 0 < x) row -> 1 <= Mobile.or30 (js_index row i).
Proof.
  intros HF. destruct (js_index row i) as [v |] eqn:E; simpl; [| lia].
  apply (js_index_pos _ _ _ HF) in E.
  destruct (Z.eqb_spec v 0); lia.
Qed.

Lemma mobile_days_pos y m : 1 <= Mobile.getDaysInBSMonth y m.
Proof.
  unfold Mobile.getDaysInBSMonth.
  destruct (Mobile.bsMonthDays !! y) as [row |] eqn:E.
  - apply or30_pos.
    exact (map_Forall_lookup_1 _ _ _ _ mobile_table_positive E).
  - apply or30_pos. repeat constructor.
Qed.

Lemma mobile_D_pos :
  forall y m, 1 <= m <= 12 -> 1 <= Mobile.getDaysInBSMonth y m.
Proof. intros y m _. apply mobile_days_pos. Qed.

Lemma mobile_adToBS_walk REF fuel x :
  (Z.to_nat (Z.abs (day_index REF x)) <= fuel)%nat ->
  Mobile.adToBS REF fuel x =
  Ret (walk Mobile.getDaysInBSMonth (day_index REF x)).
Proof.
  intros Hf. unfold Mobile.adToBS. fold (day_index REF x).
  set (n := day_index REF x) in *.
  destruct (Z.leb_spec 0 n) as [Hn | Hn].
  - rewrite (mobile_forward_iter _ mobile_D_pos); simpl; try lia.
    rewrite walk_nonneg by lia.
    replace (Z.to_nat (1 + n - 1)) with (Z.to_nat n) by lia. reflexivity.
  - rewrite (mobile_backward_iter _ mobile_D_pos); simpl; try lia.
    rewrite walk_nonpos by lia.
    replace (Z.to_nat (1 - (1 + n))) with (Z.to_nat (- n)) by lia.
    reflexivity.
Qed.

(** ** The web copy's converter *)

#[local] Abbreviation web_days :=
  (fun y m => default 30 (Web.getDaysInBSMonth y m)).

Lemma web_table_rows :
  map_Forall (fun _ row => length row = 12%nat /\ Forall (fun x => 0 < x) row)
    Web.BS_CALENDAR_DATA.
Proof. apply (bool_decide_unpack _). vm_compute. exact I. Qed.

(** On the months 1..12 the unguarded index never reads [undefined], and
    what it reads is positive. *)
Lemma web_lookup_defined y m :
  1 <= m <= 12 ->
  exists v, Web.getDaysInBSMonth y m = Some v /\ 1 <= v.
Proof.
  intros Hm. unfold Web.getDaysInBSMonth.
  destruct (Web.BS_CALENDAR_DATA !! y) as [row |] eqn:E.
  - destruct (map_Forall_lookup_1 _ _ _ _ web_table_rows E) as [Hlen HF].
    unfold js_index. destruct (Z.ltb_spec (m - 1) 0); [lia |].
    destruct (lookup_lt_is_Some_2 row (Z.to_nat (m - 1))) as [v Hv]; [lia |].
    exists v. split; [exact Hv |].
    pose proof (Forall_lookup_1 _ _ _ _ HF Hv). simpl in *. lia.
  - exists 30. split; [reflexivity | lia].
Qed.

Lemma web_lookup y m :
  1 <= m <= 12 -> Web.getDaysInBSMonth y m = Some (web_days y m).
Proof.
  intros Hm. destruct (web_lookup_defined y m Hm) as [v [-> _]]. reflexivity.
Qed.

Lemma web_D_pos : forall y m, 1 <= m <= 12 -> 1 <= web_days y m.
Proof.
  intros y m Hm. destruct (web_lookup_defined y m Hm) as [v [-> Hv]].
  exact Hv.
Qed.

Lemma web_adToBS_walk REF fuel x :
  (Z.to_nat (Z.abs (day_index REF x)) <= fuel)%nat ->
  Web.adToBS REF fuel x = Ret (walk web_days (day_index REF x)).
Proof.
  intros Hf. unfold Web.adToBS. fold (day_index REF x).
  set (n := day_index REF x) in *.
  pose proof (reference_valid _ web_D_pos) as Hr.
  destruct (Z.le_gt_cases 0 n) as [Hn | Hn].
  - rewrite (adToBS_forward_iter _ web_D_pos _ web_lookup); auto; try lia.
    simpl run_bind. simpl fst. simpl snd.
    rewrite walk_nonneg by lia. unfold BS_REFERENCE.
    destruct (Nat.iter (Z.to_nat n) (next_day web_days) (mkBSDate 2080 1 1))
      as [y m d].
    destruct fuel; reflexivity.
  - assert (E : adToBS_forward Web.getDaysInBSMonth fuel n
                  (year BS_REFERENCE) (month BS_REFERENCE) (day BS_REFERENCE)
                = Ret (n, BS_REFERENCE)).
    { destruct fuel; simpl; destruct (Z.ltb_spec 0 n); try lia; reflexivity. }
    rewrite E. simpl run_bind. simpl fst. simpl snd.
    rewrite (adToBS_backward_iter _ web_D_pos _ web_lookup); auto; try lia.
    simpl. rewrite walk_nonpos by lia. reflexivity.
Qed.

(** ** Claims about the converters *)

(** The example of [core.ts] and of the README, [adToBS(new Date("2025-12-29"))]
    is 2082-09-14, on the web copy's table with the reference at midnight of
    a zone at +05:45; and the way back lands on the same day. *)
Example adToBS_2025_12_29 :
  Web.adToBS AD_REFERENCE_Kathmandu 1000 1766966400000
  = Ret (mkBSDate 2082 9 14)
  /\ Shared.adToBS Web.BS_CALENDAR_DATA AD_REFERENCE_Kathmandu 1000
       1766966400000
     = Ret (mkBSDate 2082 9 14)
  /\ Shared.bsToAD Web.BS_CALENDAR_DATA AD_REFERENCE_Kathmandu zone_plus_0545
       1000 (mkBSDate 2082 9 14)
     = Ret (Some (1766966400000 - 20700000)).
Proof. repeat split; vm_compute; reflexivity. Qed.

Lemma day_index_mono REF a b : a <= b -> day_index REF a <= day_index REF b.
Proof.
  intros H. unfold day_index. apply Z.div_le_mono; [reflexivity | lia].
Qed.

Lemma walk_le_mono D (D_pos : forall y m, 1 <= m <= 12 -> 1 <= D y m) n m :
  n <= m -> bs_le (walk D n) (walk D m).
Proof.
  intros H. destruct (Z.eq_dec n m) as [-> | Hne]; [right; reflexivity |].
  left. apply walk_lt_mono; [exact D_pos | lia].
Qed.

(** *** Local time and the day index *)

Lemma TimeClip_Some time t : TimeClip time = Some t -> t = time.
Proof.
  unfold TimeClip. destruct (Z.abs time <=? 8640000000000000); congruence.
Qed.

Lemma TimeClip_in_range time :
  Z.abs time <= 8640000000000000 -> TimeClip time = Some time.
Proof.
  intros H. unfold TimeClip.
  destruct (Z.leb_spec (Z.abs time) 8640000000000000); [reflexivity | lia].
Qed.

(** With one offset at all times, [setDate] adds whole days of
    milliseconds. *)
Lemma setDate_fixed_zone offset t n :
  setDate_getDate_plus (fixed_zone offset) t n = TimeClip (t + n * msPerDay).
Proof.
  unfold setDate_getDate_plus, UTC, LocalTime. simpl. f_equal. lia.
Qed.

(** With one offset at all times and a reference at local midnight, the day
    index of [adToBS] is the number of calendar days from the reference. *)
Lemma day_index_calendar_day offset REF x :
  (REF + offset) mod msPerDay = 0 ->
  day_index REF x
  = calendar_day (fixed_zone offset) x - calendar_day (fixed_zone offset) REF.
Proof.
  intros Hmid. unfold day_index, calendar_day, LocalTime. simpl.
  pose proof (Z.div_mod (REF + offset) msPerDay ltac:(discriminate)) as He.
  rewrite Hmid in He.
  replace (x - REF)
    with (x + offset + - ((REF + offset) / msPerDay) * msPerDay) by lia.
  rewrite Z.div_add by discriminate. lia.
Qed.

(** X21. The round trip from a date, in any time zone.  [bsToAD] of the date
    [n] days from the anchor is the instant whose local time is the reference's
    local time plus [n] days.  Measured in milliseconds from the reference,
    that instant is [n] days plus [delta], the difference of the UTC offsets
    at the two ends.  [adToBS], which floors the millisecond difference,
    finds the date again when [0 <= delta], and the date of the day before
    when [delta < 0]. *)
Lemma round_trip_from_date
    (DATA : gmap Z (list Z)) (REF : Z) (tz : TimeZone) (n : Z) (fuel : nat)
    (t : Z) :
  table_positive DATA ->
  (Z.to_nat (Z.abs n) < fuel)%nat ->
  setDate_getDate_plus tz REF n = Some t ->
  Shared.bsToAD DATA REF tz fuel (walk (Shared.getDaysInBSMonth DATA) n)
  = Ret (Some t)
  /\ (0 <= LocalTZA_utc tz REF
           - LocalTZA_local tz (LocalTime tz REF + n * msPerDay) < msPerDay ->
      Shared.adToBS DATA REF fuel t
      = Ret (walk (Shared.getDaysInBSMonth DATA) n))
  /\ (- msPerDay <= LocalTZA_utc tz REF
           - LocalTZA_local tz (LocalTime tz REF + n * msPerDay) < 0 ->
      Shared.adToBS DATA REF fuel t
      = Ret (walk (Shared.getDaysInBSMonth DATA) (n - 1))).
Proof.
  intros Hpos Hf Ht.
  split; [rewrite <- Ht; apply shared_bsToAD_walk; [exact Hpos | lia] |].
  apply TimeClip_Some in Ht. unfold UTC, LocalTime in Ht.
  set (delta := LocalTZA_utc tz REF
                - LocalTZA_local tz (LocalTime tz REF + n * msPerDay)).
  assert (Et : t = REF + n * msPerDay + delta)
    by (unfold delta, LocalTime; lia).
  clear Ht. split; intros Hd; rewrite Et.
  - rewrite shared_adToBS_walk.
    + rewrite day_index_offset by exact Hd. reflexivity.
    + exact Hpos.
    + rewrite day_index_offset by exact Hd. lia.
  - rewrite shared_adToBS_walk.
    + rewrite day_index_offset_back by exact Hd. reflexivity.
    + exact Hpos.
    + rewrite day_index_offset_back by exact Hd. lia.
Qed.

Lemma round_trip_from_date_witness :
  Shared.bsToAD Web.BS_CALENDAR_DATA AD_REFERENCE_Sydney Australia_Sydney
    1000 (walk (Shared.getDaysInBSMonth Web.BS_CALENDAR_DATA) 990)
  = Ret (Some 1766926800000)
  /\ Shared.adToBS Web.BS_CALENDAR_DATA AD_REFERENCE_Sydney 1000
       1766926800000
     = Ret (walk (Shared.getDaysInBSMonth Web.BS_CALENDAR_DATA) (990 - 1)).
Proof.
  destruct (round_trip_from_date Web.BS_CALENDAR_DATA AD_REFERENCE_Sydney
              Australia_Sydney 990 1000 1766926800000) as (H1 & _ & H3).
  - apply (bool_decide_unpack _). vm_compute. exact I.
  - lia.
  - vm_compute. reflexivity.
  - split; [exact H1 | apply H3].
    vm_compute. split; [discriminate | reflexivity].
Defined.

(** The round trip from an instant: [adToBS] gives the date at the day index
    of the instant, and [bsToAD] of that date gives the instant whose local
    time is the reference's local time plus that many days. *)
Lemma round_trip_from_instant
    (DATA : gmap Z (list Z)) (REF : Z) (tz : TimeZone) (x : Z) (fuel : nat) :
  table_positive DATA ->
  (Z.to_nat (Z.abs (day_index REF x)) <= fuel)%nat ->
  exists d,
    Shared.adToBS DATA REF fuel x = Ret d /\
    Shared.bsToAD DATA REF tz fuel d
    = Ret (setDate_getDate_plus tz REF (day_index REF x)).
Proof.
  intros Hpos Hf. eexists. split.
  - apply shared_adToBS_walk; assumption.
  - apply shared_bsToAD_walk; assumption.
Qed.

(** X22. In a zone with one offset at all times the two converters are
    inverse to each other on the dates of the calendar: a date [d] lies [n]
    days from the anchor, [bsToAD d] is the reference plus [n] days of
    milliseconds, as long as that is in the range of time values, and
    [adToBS] of that instant is [d]. *)
Lemma round_trip_fixed_zone
    (DATA : gmap Z (list Z)) (REF offset : Z) (d : BSDate) :
  table_positive DATA ->
  valid_date (Shared.getDaysInBSMonth DATA) d ->
  exists n,
    walk (Shared.getDaysInBSMonth DATA) n = d /\
    (Z.abs (REF + n * msPerDay) <= 8640000000000000 ->
     forall fuel, (Z.to_nat (Z.abs n) <= fuel)%nat ->
       Shared.bsToAD DATA REF (fixed_zone offset) fuel d
       = Ret (Some (REF + n * msPerDay)) /\
       Shared.adToBS DATA REF fuel (REF + n * msPerDay) = Ret d).
Proof.
  intros Hpos Hv.
  destruct (walk_onto _ (shared_D_pos DATA Hpos) d Hv) as [n Hn].
  exists n. split; [exact Hn |]. intros Hr fuel Hf. subst d. split.
  - rewrite shared_bsToAD_walk by assumption.
    rewrite setDate_fixed_zone, TimeClip_in_range by exact Hr. reflexivity.
  - rewrite shared_adToBS_walk; rewrite ?day_index_shift; auto.
Qed.

Lemma round_trip_fixed_zone_witness :
  Shared.bsToAD Web.BS_CALENDAR_DATA AD_REFERENCE_Kathmandu zone_plus_0545
    1000 (mkBSDate 2082 9 14)
  = Ret (Some (AD_REFERENCE_Kathmandu + 990 * msPerDay))
  /\ Shared.adToBS Web.BS_CALENDAR_DATA AD_REFERENCE_Kathmandu 1000
       (AD_REFERENCE_Kathmandu + 990 * msPerDay)
     = Ret (mkBSDate 2082 9 14).
Proof.
  assert (Hp : table_positive Web.BS_CALENDAR_DATA)
    by (apply (bool_decide_unpack _); vm_compute; exact I).
  assert (Hv : valid_date (Shared.getDaysInBSMonth Web.BS_CALENDAR_DATA)
                 (mkBSDate 2082 9 14))
    by (repeat split; apply Z.leb_le; vm_compute; reflexivity).
  destruct (round_trip_fixed_zone Web.BS_CALENDAR_DATA AD_REFERENCE_Kathmandu
              20700000 (mkBSDate 2082 9 14) Hp Hv) as (n & Hn & H).
  assert (En : n = 990).
  { apply (walk_inj _ (shared_D_pos _ Hp)). rewrite Hn.
    vm_compute. reflexivity. }
  subst n. apply H.
  - vm_compute. discriminate.
  - lia.
Defined.

(** C1. The round trip of the shared library's converter pair fails in a time
    zone with daylight saving time.  In Australia/Sydney the reference
    [new Date(2023, 3, 14)], local midnight of 2023-04-14, is
    2023-04-13T14:00Z (offset +10:00).  For the date 2082-09-14, a date of
    the calendar 990 days from the anchor on the web copy's table, [bsToAD]
    returns local midnight of 2025-12-29, which is 2025-12-28T13:00Z (offset
    +11:00): one hour less than 990 days after the reference.  [adToBS] of
    that instant floors the millisecond difference to 989 days and returns
    2082-09-13. *)
Theorem round_trip_off_by_one_in_Sydney :
  TimeClip (UTC Australia_Sydney 1681430400000) = Some AD_REFERENCE_Sydney
  /\ valid_date (Shared.getDaysInBSMonth Web.BS_CALENDAR_DATA)
       (mkBSDate 2082 9 14)
  /\ Shared.bsToAD Web.BS_CALENDAR_DATA AD_REFERENCE_Sydney Australia_Sydney
       1000 (mkBSDate 2082 9 14)
     = Ret (Some 1766926800000)
  /\ 1766926800000 = AD_REFERENCE_Sydney + 990 * msPerDay - 3600000
  /\ Shared.adToBS Web.BS_CALENDAR_DATA AD_REFERENCE_Sydney 1000 1766926800000
     = Ret (mkBSDate 2082 9 13).
Proof.
  split; [reflexivity |]. split.
  - repeat split; apply Z.leb_le; vm_compute; reflexivity.
  - repeat split; vm_compute; reflexivity.
Qed.

(** X23. The order part of monotonicity, shared library and mobile copy: for
    instants [a < b] the two results are ordered lexicographically on
    (year, month, day), and they are equal exactly when [a] and [b] have the
    same day index, the whole number of 86400000 ms periods since the
    reference. *)
Lemma adToBS_ordered
    (DATA : gmap Z (list Z)) (REF a b : Z) (fuel : nat) :
  table_positive DATA ->
  a < b ->
  (Z.to_nat (Z.abs (day_index REF a)) <= fuel)%nat ->
  (Z.to_nat (Z.abs (day_index REF b)) <= fuel)%nat ->
  (exists da db,
      Shared.adToBS DATA REF fuel a = Ret da /\
      Shared.adToBS DATA REF fuel b = Ret db /\
      bs_le da db /\
      (da = db <-> day_index REF a = day_index REF b))
  /\ (exists da db,
      Mobile.adToBS REF fuel a = Ret da /\
      Mobile.adToBS REF fuel b = Ret db /\
      bs_le da db /\
      (da = db <-> day_index REF a = day_index REF b)).
Proof.
  intros Hpos Hab Hfa Hfb.
  pose proof (day_index_mono REF a b ltac:(lia)) as Hle.
  split.
  - exists (walk (Shared.getDaysInBSMonth DATA) (day_index REF a)),
      (walk (Shared.getDaysInBSMonth DATA) (day_index REF b)).
    repeat split; try (apply shared_adToBS_walk; assumption).
    + apply walk_le_mono; [apply shared_D_pos |]; assumption.
    + apply walk_inj, shared_D_pos; assumption.
    + intros ->; reflexivity.
  - exists (walk Mobile.getDaysInBSMonth (day_index REF a)),
      (walk Mobile.getDaysInBSMonth (day_index REF b)).
    repeat split; try (apply mobile_adToBS_walk; assumption).
    + apply walk_le_mono; [apply mobile_D_pos | assumption].
    + apply walk_inj, mobile_D_pos.
    + intros ->; reflexivity.
Qed.

Lemma adToBS_ordered_witness :
  table_positive Web.BS_CALENDAR_DATA /\
  1766923200000 < 1767009600000 /\
  exists da db,
    Shared.adToBS Web.BS_CALENDAR_DATA AD_REFERENCE_Kathmandu 1000
      1766923200000 = Ret da /\
    Shared.adToBS Web.BS_CALENDAR_DATA AD_REFERENCE_Kathmandu 1000
      1767009600000 = Ret db /\
    bs_le da db /\
    (da = db <->
     day_index AD_REFERENCE_Kathmandu 1766923200000
     = day_index AD_REFERENCE_Kathmandu 1767009600000).
Proof.
  assert (Hp : table_positive Web.BS_CALENDAR_DATA)
    by (apply (bool_decide_unpack _); vm_compute; exact I).
  split; [exact Hp | split; [lia |]].
  refine (proj1 (adToBS_ordered Web.BS_CALENDAR_DATA AD_REFERENCE_Kathmandu
                   1766923200000 1767009600000 1000 Hp _ _ _)).
  - lia.
  - apply Nat.leb_le. vm_compute. reflexivity.
  - apply Nat.leb_le. vm_compute. reflexivity.
Defined.

(** X24. In a zone with one offset at all times and with the reference at
    local midnight, two instants get the same date exactly when they fall on
    the same local calendar day, in the shared library and in the mobile
    copy. *)
Lemma adToBS_equal_on_calendar_day
    (DATA : gmap Z (list Z)) (REF offset a b : Z) (fuel : nat) :
  table_positive DATA ->
  (REF + offset) mod msPerDay = 0 ->
  (Z.to_nat (Z.abs (day_index REF a)) <= fuel)%nat ->
  (Z.to_nat (Z.abs (day_index REF b)) <= fuel)%nat ->
  (Shared.adToBS DATA REF fuel a = Shared.adToBS DATA REF fuel b
   <-> calendar_day (fixed_zone offset) a = calendar_day (fixed_zone offset) b)
  /\ (Mobile.adToBS REF fuel a = Mobile.adToBS REF fuel b
      <-> calendar_day (fixed_zone offset) a
          = calendar_day (fixed_zone offset) b).
Proof.
  intros Hpos Hmid Hfa Hfb.
  pose proof (day_index_calendar_day offset REF a Hmid) as Ea.
  pose proof (day_index_calendar_day offset REF b Hmid) as Eb.
  rewrite !shared_adToBS_walk, !mobile_adToBS_walk by assumption.
  split; split; intros H.
  - injection H as H. apply walk_inj in H; [lia | apply shared_D_pos, Hpos].
  - do 2 f_equal. lia.
  - injection H as H. apply walk_inj in H; [lia | apply mobile_D_pos].
  - do 2 f_equal. lia.
Qed.

Lemma adToBS_equal_on_calendar_day_witness :
  Mobile.adToBS AD_REFERENCE_Kathmandu 1000 1766945700000
  = Mobile.adToBS AD_REFERENCE_Kathmandu 1000 1767032099999
  <-> calendar_day zone_plus_0545 1766945700000
      = calendar_day zone_plus_0545 1767032099999.
Proof.
  refine (proj2 (adToBS_equal_on_calendar_day Web.BS_CALENDAR_DATA
                   AD_REFERENCE_Kathmandu 20700000 1766945700000
                   1767032099999 1000 _ _ _ _)).
  - apply (bool_decide_unpack _). vm_compute. exact I.
  - reflexivity.
  - apply Nat.leb_le. vm_compute. reflexivity.
  - apply Nat.leb_le. vm_compute. reflexivity.
Defined.

(** C2. [adToBS] gives one date to two instants on different calendar days.
    In America/New_York the reference [new Date(2023, 3, 14)], local midnight
    of 2023-04-14, is 2023-04-14T04:00Z (offset -04:00), so in winter (offset
    -05:00) the day index changes at 23:00 local time.  The instants 2025-12-28 23:30 and
    2025-12-29 00:30 local time, one calendar day apart, both get 2082-09-14
    in the shared library (on the web copy's table) and both get 2082-09-15
    in the mobile copy (whose table differs). *)
Theorem adToBS_one_date_across_midnight_in_New_York :
  TimeClip (UTC America_New_York 1681430400000) = Some AD_REFERENCE_New_York
  /\ 1766982600000 < 1766986200000
  /\ calendar_day America_New_York 1766982600000 + 1
     = calendar_day America_New_York 1766986200000
  /\ Shared.adToBS Web.BS_CALENDAR_DATA AD_REFERENCE_New_York 1000
       1766982600000
     = Ret (mkBSDate 2082 9 14)
  /\ Shared.adToBS Web.BS_CALENDAR_DATA AD_REFERENCE_New_York 1000
       1766986200000
     = Ret (mkBSDate 2082 9 14)
  /\ Mobile.adToBS AD_REFERENCE_New_York 1000 1766982600000
     = Ret (mkBSDate 2082 9 15)
  /\ Mobile.adToBS AD_REFERENCE_New_York 1000 1766986200000
     = Ret (mkBSDate 2082 9 15).
Proof. repeat split; vm_compute; reflexivity. Qed.

(** C3. Well-formed output of [adToBS] in all three copies: the month is in
    1..12 and the day is between 1 and the length of that month. *)
Theorem adToBS_well_formed
    (DATA : gmap Z (list Z)) (REF x : Z) (fuel : nat) :
  table_positive DATA ->
  (Z.to_nat (Z.abs (day_index REF x)) <= fuel)%nat ->
  (exists d,
      Shared.adToBS DATA REF fuel x = Ret d /\
      1 <= month d <= 12 /\
      1 <= day d <= Shared.getDaysInBSMonth DATA (year d) (month d))
  /\ (exists d,
      Mobile.adToBS REF fuel x = Ret d /\
      1 <= month d <= 12 /\
      1 <= day d <= Mobile.getDaysInBSMonth (year d) (month d))
  /\ (exists d n,
      Web.adToBS REF fuel x = Ret d /\
      1 <= month d <= 12 /\
      Web.getDaysInBSMonth (year d) (month d) = Some n /\
      1 <= day d <= n).
Proof.
  intros Hpos Hf. split; [| split].
  - eexists. split; [apply shared_adToBS_walk; assumption |].
    apply (walk_valid _ (shared_D_pos DATA Hpos)).
  - eexists. split; [apply mobile_adToBS_walk; assumption |].
    apply (walk_valid _ mobile_D_pos).
  - pose proof (walk_valid _ web_D_pos (day_index REF x)) as [Hm Hd].
    eexists. eexists. split; [apply web_adToBS_walk; assumption |].
    split; [exact Hm |]. split; [apply web_lookup; exact Hm | exact Hd].
Qed.

Lemma adToBS_well_formed_witness :
  table_positive Web.BS_CALENDAR_DATA /\
  exists d,
    Shared.adToBS Web.BS_CALENDAR_DATA AD_REFERENCE_Kathmandu 1000
      1767009600000 = Ret d /\
    1 <= month d <= 12 /\
    1 <= day d
    <= Shared.getDaysInBSMonth Web.BS_CALENDAR_DATA (year d) (month d).
Proof.
  assert (Hp : table_positive Web.BS_CALENDAR_DATA)
    by (apply (bool_decide_unpack _); vm_compute; exact I).
  split; [exact Hp |].
  refine (proj1 (adToBS_well_formed Web.BS_CALENDAR_DATA
                   AD_REFERENCE_Kathmandu 1767009600000 1000 Hp _)).
  apply Nat.leb_le. vm_compute. reflexivity.
Defined.



(** ** Claims about the calendar table *)

(** C4 (amended). For a year without an entry and a month in 1..12, the
    shared library and the mobile copy return the month's entry of the
    default pattern 31,31,32,31,31,31,30,29,30,29,30,30 and give the year 365
    days; the web copy returns the constant 30 for every such month. *)
Theorem unknown_year_fallback (DATA : gmap Z (list Z)) (y m : Z) :
  1 <= m <= 12 ->
  (DATA !! y = None ->
     js_index Shared.defaultDays (m - 1)
     = Some (Shared.getDaysInBSMonth DATA y m) /\
     Shared.getDaysInBSYear DATA y = 365)
  /\ (Mobile.bsMonthDays !! y = None ->
     js_index Shared.defaultDays (m - 1)
     = Some (Mobile.getDaysInBSMonth y m) /\
     Mobile.getDaysInBSYear y = 365)
  /\ (Web.BS_CALENDAR_DATA !! y = None ->
     Web.getDaysInBSMonth y m = Some 30)
  /\ foldl Z.add 0 Shared.defaultDays = 365.
Proof.
  intros Hm.
  unfold Shared.getDaysInBSMonth, Shared.getDaysInBSYear,
    Mobile.getDaysInBSMonth, Mobile.getDaysInBSYear, Web.getDaysInBSMonth.
  assert (Hc : m = 1 \/ m = 2 \/ m = 3 \/ m = 4 \/ m = 5 \/ m = 6 \/ m = 7
               \/ m = 8 \/ m = 9 \/ m = 10 \/ m = 11 \/ m = 12) by lia.
  split; [| split; [| split; [| reflexivity]]].
  - intros ->.
    repeat (destruct Hc as [-> | Hc]; [split; reflexivity |]).
    rewrite Hc. split; reflexivity.
  - intros ->.
    repeat (destruct Hc as [-> | Hc]; [split; reflexivity |]).
    rewrite Hc. split; reflexivity.
  - intros ->. reflexivity.
Qed.

Lemma unknown_year_fallback_witness :
  Web.BS_CALENDAR_DATA !! 2091 = None /\
  Mobile.bsMonthDays !! 2091 = None /\
  Shared.getDaysInBSMonth Web.BS_CALENDAR_DATA 2091 3 = 32 /\
  Shared.getDaysInBSYear Web.BS_CALENDAR_DATA 2091 = 365 /\
  Mobile.getDaysInBSMonth 2091 3 = 32 /\
  Web.getDaysInBSMonth 2091 3 = Some 30.
Proof.
  assert (Hw : Web.BS_CALENDAR_DATA !! 2091 = None) by reflexivity.
  assert (Hm : Mobile.bsMonthDays !! 2091 = None) by reflexivity.
  assert (E : js_index Shared.defaultDays (3 - 1) = Some 32) by reflexivity.
  destruct (unknown_year_fallback Web.BS_CALENDAR_DATA 2091 3 ltac:(lia))
    as (Hs & Hmo & Hwe & _).
  destruct (Hs Hw) as [H1 H2]. destruct (Hmo Hm) as [H3 _].
  rewrite E in H1, H3.
  split; [exact Hw | split; [exact Hm |]].
  split; [congruence |]. split; [exact H2 |]. split; [congruence |].
  exact (Hwe Hw).
Defined.

(** C4, as stated, fails on the web copy: for the year 2091, which has no
    entry, no 12-element pattern with two different entries gives the web
    copy's month lengths. *)
Lemma unknown_year_fallback_web_counterexample :
  Web.BS_CALENDAR_DATA !! 2091 = None /\
  ~ (exists pattern : list Z,
        (exists i j a b, pattern !! i = Some a /\ pattern !! j = Some b /\
                         (i < 12)%nat /\ (j < 12)%nat /\ a <> b) /\
        forall m, 1 <= m <= 12 ->
          Web.getDaysInBSMonth 2091 m = pattern !! Z.to_nat (m - 1)).
Proof.
  split; [reflexivity |].
  intros (pattern & (i & j & a & b & Hi & Hj & Hli & Hlj & Hab) & H).
  pose proof (H (Z.of_nat i + 1) ltac:(lia)) as H1.
  pose proof (H (Z.of_nat j + 1) ltac:(lia)) as H2.
  replace (Z.to_nat (Z.of_nat i + 1 - 1)) with i in H1 by lia.
  replace (Z.to_nat (Z.of_nat j + 1 - 1)) with j in H2 by lia.
  unfold Web.getDaysInBSMonth in H1, H2.
  change (Web.BS_CALENDAR_DATA !! 2091) with (@None (list Z)) in H1, H2.
  congruence.
Qed.

(** ** Claims about the relative-time functions *)

(** The shared library does return the absolute full-style date for a
    timestamp after [now]. *)
Lemma shared_future_fallback DATA MONTHS REF fuel now date :
  now < date ->
  Shared.getRelativeTimeNepali DATA MONTHS REF fuel now date
  = run_bind (Shared.adToBS DATA REF fuel date)
      (fun bs => Ret (Shared.formatBSDate MONTHS bs Shared.full)).
Proof.
  intros H. unfold Shared.getRelativeTimeNepali.
  destruct (Z.ltb_spec (now - date) 0); [reflexivity | lia].
Qed.

(** The web copy answers "just now" for every timestamp after [now]. *)
Lemma web_future_always_just_now REF fuel now date :
  now < date ->
  Web.getRelativeTimeNepali REF fuel now date = Ret phrase_just_now.
Proof.
  intros H. unfold Web.getRelativeTimeNepali.
  destruct (Z.ltb_spec ((now - date) / (1000 * 60)) 1) as [_ | Hge];
    [reflexivity |].
  assert ((now - date) / (1000 * 60) < 0)
    by (apply Z.div_lt_upper_bound; lia).
  lia.
Qed.

(** C6, the web copy at now = 2025-12-29T12:00:00Z and
    timestamp = 2026-01-05T00:00:00Z, a timestamp after [now]: the result is
    the "just now" phrase, whatever the reference instant, and it is not the
    full-style date of [adToBS timestamp] that C6 states. *)
Theorem web_future_timestamp_just_now :
  (forall (REF : Z) (fuel : nat),
      Web.getRelativeTimeNepali REF fuel 1767009600000 1767571200000
      = Ret phrase_just_now)
  /\ Web.getRelativeTimeNepali AD_REFERENCE_Kathmandu 1000
       1767009600000 1767571200000
     <> run_bind (Web.adToBS AD_REFERENCE_Kathmandu 1000 1767571200000)
          (fun bs => Ret (Web.formatBSDate bs Web.full)).
Proof.
  split; [reflexivity |]. vm_compute. discriminate.
Qed.

Lemma elapsed_one_day ms :
  86400000 <= ms < 172800000 ->
  60 <= ms / 1000 /\ 60 <= ms / 1000 / 60 /\ 24 <= ms / 1000 / 60 / 60 /\
  ms / 1000 / 60 / 60 / 24 = 1 /\
  60 <= ms / (1000 * 60) /\ 24 <= ms / (1000 * 60 * 60) /\
  ms / (1000 * 60 * 60 * 24) = 1.
Proof.
  intros H. rewrite !Z.div_div by lia. simpl.
  repeat split; Z.div_mod_to_equations; lia.
Qed.

(** C7 (amended). When the elapsed time is at least one day and less than
    two, the shared library returns the fixed "yesterday" phrase, which is
    not the "1 days ago" phrase of the generic bucket; the mobile copy has no
    such bucket and returns "1 days ago" in localized digits. *)
Theorem yesterday_bucket
    (DATA : gmap Z (list Z)) (MONTHS : list jsstring) (REF : Z)
    (fuel : nat) (now date : Z) :
  86400000 <= now - date < 172800000 ->
  Shared.getRelativeTimeNepali DATA MONTHS REF fuel now date
  = Ret phrase_yesterday
  /\ phrase_yesterday <> toNepaliDigitsNum 1 ++ phrase_days_ago
  /\ Mobile.formatRelativeTime REF fuel now date
     = Ret (toNepaliDigitsNum 1 ++ phrase_days_ago).
Proof.
  intros H.
  destruct (elapsed_one_day _ H) as (H1 & H2 & H3 & H4 & H5 & H6 & H7).
  split; [| split].
  - unfold Shared.getRelativeTimeNepali.
    destruct (Z.ltb_spec (now - date) 0); [lia |].
    destruct (Z.ltb_spec ((now - date) / 1000) 60); [lia |].
    destruct (Z.ltb_spec ((now - date) / 1000 / 60) 60); [lia |].
    destruct (Z.ltb_spec ((now - date) / 1000 / 60 / 60) 24); [lia |].
    rewrite H4. reflexivity.
  - discriminate.
  - unfold Mobile.formatRelativeTime.
    destruct (Z.ltb_spec ((now - date) / (1000 * 60)) 1); [lia |].
    destruct (Z.ltb_spec ((now - date) / (1000 * 60)) 60); [lia |].
    destruct (Z.ltb_spec ((now - date) / (1000 * 60 * 60)) 24); [lia |].
    rewrite H7. reflexivity.
Qed.

Lemma yesterday_bucket_witness :
  Shared.getRelativeTimeNepali Web.BS_CALENDAR_DATA Web.BS_MONTHS
    AD_REFERENCE_Kathmandu 0 1767009600000 1766923200000
  = Ret phrase_yesterday.
Proof.
  refine (proj1 (yesterday_bucket Web.BS_CALENDAR_DATA Web.BS_MONTHS
                   AD_REFERENCE_Kathmandu 0 1767009600000 1766923200000 _)).
  lia.
Defined.

(** C7, as stated, fails on the mobile copy: with now = 2025-12-29T12:00:00Z
    and timestamp = 2025-12-28T12:00:00Z the result is "1 days ago" in
    localized digits, not the "yesterday" phrase. *)
Lemma yesterday_bucket_mobile_counterexample :
  Mobile.formatRelativeTime AD_REFERENCE_Kathmandu 0
    1767009600000 1766923200000
  = Ret ([2407%N] ++ phrase_days_ago)
  /\ Mobile.formatRelativeTime AD_REFERENCE_Kathmandu 0
       1767009600000 1766923200000
     <> Ret phrase_yesterday.
Proof. split; [reflexivity | discriminate]. Qed.

(** ** Claims about the formatter *)

(** C10. [formatBSDate] of the shared library is a total function of the
    date and the style; when the month is outside 1..12 the month name is the
    empty string in the full and the long style. *)
Theorem formatBSDate_month_out_of_range
    (MONTHS : list jsstring) (d : BSDate) (format : Shared.BSDateFormat) :
  length MONTHS = 12%nat ->
  month d < 1 \/ 12 < month d ->
  (exists s, Shared.formatBSDate MONTHS d format = s)
  /\ Shared.formatBSDate MONTHS d Shared.full
     = toNepaliDigitsNum (day d) ++ [32%N] ++ [] ++ [32%N]
       ++ toNepaliDigitsNum (year d)
  /\ Shared.formatBSDate MONTHS d Shared.long
     = [] ++ [32%N] ++ toNepaliDigitsNum (day d) ++ [44%N; 32%N]
       ++ toNepaliDigitsNum (year d).
Proof.
  intros Hlen Hm.
  assert (E : js_index MONTHS (month d - 1) = None).
  { unfold js_index. destruct (Z.ltb_spec (month d - 1) 0); [reflexivity |].
    apply lookup_ge_None_2. lia. }
  split; [eexists; reflexivity |].
  unfold Shared.formatBSDate. rewrite E. split; reflexivity.
Qed.

Lemma formatBSDate_month_out_of_range_witness :
  Shared.formatBSDate Web.BS_MONTHS (mkBSDate 2082 13 1) Shared.full
  = [2407; 32; 32; 2408; 2406; 2414; 2408]%N.
Proof.
  refine (eq_trans
            (proj1 (proj2 (formatBSDate_month_out_of_range Web.BS_MONTHS
                             (mkBSDate 2082 13 1) Shared.full _ _))) _).
  - reflexivity.
  - right. simpl. lia.
  - reflexivity.
Defined.

(** ** Claims about the digit localizer *)

(** The example of [core.ts]: [toNepaliDigits(2082)] is "२०८२". *)
Example toNepaliDigits_2082 :
  toNepaliDigitsNum 2082 = [2408%N; 2406%N; 2414%N; 2408%N].
Proof. reflexivity. Qed.

Lemma ascii_digit_cases c :
  is_ascii_digit c = true ->
  c = 48%N \/ c = 49%N \/ c = 50%N \/ c = 51%N \/ c = 52%N \/ c = 53%N
  \/ c = 54%N \/ c = 55%N \/ c = 56%N \/ c = 57%N.
Proof.
  unfold is_ascii_digit. intros H.
  destruct (N.leb_spec 48 c), (N.leb_spec c 57); try discriminate. lia.
Qed.

(** What one code unit becomes. *)
Lemma toNepaliDigits_cons c s :
  toNepaliDigits (c :: s) =
  (if is_ascii_digit c then (2406 + (c - 48))%N else c)
    :: toNepaliDigits s.
Proof.
  unfold toNepaliDigits at 1. simpl. fold (toNepaliDigits s).
  unfold parseInt. destruct (is_ascii_digit c) eqn:Hd; [| reflexivity].
  destruct (ascii_digit_cases c Hd)
    as [-> |[-> |[-> |[-> |[-> |[-> |[-> |[-> |[-> | ->]]]]]]]]];
    reflexivity.
Qed.

Lemma toNepaliDigits_length s : length (toNepaliDigits s) = length s.
Proof.
  induction s as [| c s IH]; [reflexivity |].
  rewrite toNepaliDigits_cons. simpl. now rewrite IH.
Qed.

Lemma toNepaliDigits_lookup s : forall (i : nat) (c : N),
  s !! i = Some c ->
  toNepaliDigits s !! i
  = Some (if is_ascii_digit c then (2406 + (c - 48))%N else c).
Proof.
  induction s as [| a s IH]; intros i c H; [discriminate |].
  rewrite toNepaliDigits_cons. destruct i as [| i]; simpl in *.
  - now injection H as ->.
  - now apply IH.
Qed.

(** C9. [toNepaliDigits] keeps the length of its input; an ASCII digit
    '0'..'9' at a position is replaced by the glyph of [NEPALI_DIGITS] at the
    digit's index, which is one code unit; any other code unit stays at its
    position.  The glyph table has ten entries.  The function is total. *)
Theorem toNepaliDigits_correct (s : jsstring) :
  length NEPALI_DIGITS = 10%nat /\
  length (toNepaliDigits s) = length s /\
  forall (i : nat) (c : N), s !! i = Some c ->
    (is_ascii_digit c = true ->
       exists g, NEPALI_DIGITS !! N.to_nat (c - 48) = Some [g] /\
                 toNepaliDigits s !! i = Some g)
    /\ (is_ascii_digit c = false -> toNepaliDigits s !! i = Some c).
Proof.
  split; [reflexivity |]. split; [apply toNepaliDigits_length |].
  intros i c H. rewrite (toNepaliDigits_lookup s i c H).
  destruct (is_ascii_digit c) eqn:Hd; split; intros H'; try easy.
  exists (2406 + (c - 48))%N. split; [| reflexivity].
  destruct (ascii_digit_cases c Hd)
    as [-> |[-> |[-> |[-> |[-> |[-> |[-> |[-> |[-> | ->]]]]]]]]];
    reflexivity.
Qed.

Lemma toNepaliDigits_correct_witness :
  toNepaliDigits [50; 45; 97]%N !! 0%nat = Some 2408%N /\
  toNepaliDigits [50; 45; 97]%N !! 1%nat = Some 45%N.
Proof.
  destruct (toNepaliDigits_correct [50; 45; 97]%N) as (_ & _ & H).
  split.
  - destruct (proj1 (H 0%nat 50%N eq_refl) eq_refl) as (g & Hg & ->).
    vm_compute in Hg. congruence.
  - exact (proj2 (H 1%nat 45%N eq_refl) eq_refl).
Defined.

(** ** Claims about the short style *)

Lemma uint_chars_digits u :
  Forall (fun c => is_ascii_digit c = true) (uint_chars u).
Proof. induction u; simpl; constructor; auto. Qed.

Lemma chars_uint_uint_chars u : chars_uint (uint_chars u) = Some u.
Proof. induction u; simpl; rewrite ?IHu; reflexivity. Qed.

Lemma fromNepaliDigits_toNepaliDigits s :
  Forall (fun c => is_ascii_digit c = true) s ->
  fromNepaliDigits (toNepaliDigits s) = s.
Proof.
  induction 1 as [| c s Hc _ IH]; [reflexivity |].
  rewrite toNepaliDigits_cons, Hc. simpl. rewrite IH. f_equal.
  destruct (ascii_digit_cases c Hc)
    as [-> |[-> |[-> |[-> |[-> |[-> |[-> |[-> |[-> | ->]]]]]]]]];
    reflexivity.
Qed.

Lemma toNepaliDigits_no_separator s :
  Forall (fun c => is_ascii_digit c = true) s ->
  Forall (fun c => (c =? 45)%N = false) (toNepaliDigits s).
Proof.
  induction 1 as [| c s Hc _ IH]; [constructor |].
  rewrite toNepaliDigits_cons, Hc. constructor; [| exact IH].
  destruct (ascii_digit_cases c Hc)
    as [-> |[-> |[-> |[-> |[-> |[-> |[-> |[-> |[-> | ->]]]]]]]]];
    reflexivity.
Qed.

Lemma split_on_no_separator sep s :
  Forall (fun c => (c =? sep)%N = false) s -> split_on sep s = [s].
Proof.
  induction 1 as [| c s Hc _ IH]; [reflexivity |].
  simpl. rewrite Hc, IH. reflexivity.
Qed.

Lemma split_on_app sep a b :
  Forall (fun c => (c =? sep)%N = false) a ->
  split_on sep (a ++ sep :: b) = a :: split_on sep b.
Proof.
  induction 1 as [| c a Hc _ IH]; simpl.
  - rewrite N.eqb_refl. reflexivity.
  - rewrite Hc, IH. reflexivity.
Qed.

Lemma padStart_digits n s :
  Forall (fun c => is_ascii_digit c = true) s ->
  Forall (fun c => is_ascii_digit c = true) (padStart n 48%N s).
Proof.
  intros H. unfold padStart. apply Forall_app. split; [| exact H].
  induction (n - length s)%nat; simpl; constructor; auto.
Qed.

Lemma chars_uint_zero_prefix k s u :
  chars_uint s = Some u ->
  exists u', chars_uint (replicate k 48%N ++ s) = Some u' /\
             Z.of_uint u' = Z.of_uint u.
Proof.
  intros H. induction k as [| k (u' & E & Hu)]; simpl.
  - eauto.
  - rewrite E. simpl. eexists. split; [reflexivity |]. exact Hu.
Qed.

(** *** The text of a number *)

(** The decimal expansion of a number that is not negative: digits, not
    empty, and read back as the number. *)
Lemma decimal_nonneg n :
  0 <= n ->
  exists u, decimal n = uint_chars u /\ Z.of_uint u = n /\ decimal n <> [].
Proof.
  intros Hn. unfold decimal.
  pose proof (DecimalZ.of_to n) as E.
  destruct n as [| p | p]; simpl in *; [| | lia].
  - exists Decimal.zero. repeat split. discriminate.
  - exists (Pos.to_uint p). repeat split; [exact E |].
    intros Hnil. pose proof (DecimalPos.Unsigned.of_to p) as Hp.
    destruct (Pos.to_uint p); simpl in *; discriminate.
Qed.

(** Up to 2^53 the text of a number is its decimal expansion. *)
Lemma toString_small n :
  Z.abs n <= 9007199254740992 -> toString n = decimal n.
Proof.
  intros H. unfold toString.
  destruct (Z.leb_spec (Z.abs n) 9007199254740992); [reflexivity | lia].
Qed.

Lemma toString_nonneg n :
  0 <= n <= 9007199254740992 ->
  exists u, toString n = uint_chars u /\ Z.of_uint u = n /\ toString n <> [].
Proof.
  intros Hn. rewrite toString_small by lia. apply decimal_nonneg. lia.
Qed.

(** The integers up to 2^53 are Numbers. *)
Lemma round_to_double_small n :
  0 <= n <= 9007199254740992 -> round_to_double n = n.
Proof.
  intros Hn. unfold round_to_double.
  destruct (Z.leb_spec (Z.log2 n + 1) 53) as [Hb | Hb]; [reflexivity |].
  assert (En : n = 9007199254740992).
  { destruct (Z.eq_dec n 9007199254740992) as [E | Hne]; [exact E |].
    exfalso.
    assert (Hlt : n < 2 ^ 53)
      by (change (2 ^ 53) with 9007199254740992; lia).
    destruct (Z.eq_dec n 0) as [-> | Hz]; [simpl in Hb; lia |].
    apply Z.log2_lt_pow2 in Hlt; lia. }
  subst n. reflexivity.
Qed.

(** Digits followed by zeros read as the digits' number times a power of
    ten. *)
Lemma zeros_uint (m : nat) :
  exists z,
    uint_chars z = replicate m 48%N /\
    Pos.of_uint z = 0%N /\
    forall acc, Z.pos (Pos.of_uint_acc z acc) = Z.pos acc * 10 ^ Z.of_nat m.
Proof.
  induction m as [| m (z & Ez & E0 & Eacc)].
  - exists Decimal.Nil. repeat split. intros acc. simpl. lia.
  - exists (Decimal.D0 z). simpl. rewrite Ez. repeat split; [exact E0 |].
    intros acc. rewrite Eacc, Nat2Z.inj_succ, Z.pow_succ_r by lia. lia.
Qed.

Lemma uint_chars_zeros (u : Decimal.uint) (m : nat) :
  exists u',
    uint_chars u' = uint_chars u ++ replicate m 48%N /\
    Z.of_N (Pos.of_uint u') = Z.of_N (Pos.of_uint u) * 10 ^ Z.of_nat m /\
    forall acc,
      Z.pos (Pos.of_uint_acc u' acc)
      = Z.pos (Pos.of_uint_acc u acc) * 10 ^ Z.of_nat m.
Proof.
  induction u as [| u (u' & Ec & Ev & Ea) | u (u' & Ec & Ev & Ea)
                  | u (u' & Ec & Ev & Ea) | u (u' & Ec & Ev & Ea)
                  | u (u' & Ec & Ev & Ea) | u (u' & Ec & Ev & Ea)
                  | u (u' & Ec & Ev & Ea) | u (u' & Ec & Ev & Ea)
                  | u (u' & Ec & Ev & Ea) | u (u' & Ec & Ev & Ea)].
  - destruct (zeros_uint m) as (z & Ez & E0 & Eacc).
    exists z. simpl. rewrite E0. repeat split; [exact Ez | exact Eacc].
  - exists (Decimal.D0 u'). simpl. rewrite Ec. repeat split; [exact Ev |].
    intros acc. apply Ea.
  - exists (Decimal.D1 u'). simpl. rewrite Ec. repeat split; intros; apply Ea.
  - exists (Decimal.D2 u'). simpl. rewrite Ec. repeat split; intros; apply Ea.
  - exists (Decimal.D3 u'). simpl. rewrite Ec. repeat split; intros; apply Ea.
  - exists (Decimal.D4 u'). simpl. rewrite Ec. repeat split; intros; apply Ea.
  - exists (Decimal.D5 u'). simpl. rewrite Ec. repeat split; intros; apply Ea.
  - exists (Decimal.D6 u'). simpl. rewrite Ec. repeat split; intros; apply Ea.
  - exists (Decimal.D7 u'). simpl. rewrite Ec. repeat split; intros; apply Ea.
  - exists (Decimal.D8 u'). simpl. rewrite Ec. repeat split; intros; apply Ea.
  - exists (Decimal.D9 u'). simpl. rewrite Ec. repeat split; intros; apply Ea.
Qed.

Lemma decimal_zeros s (m : nat) :
  0 <= s ->
  exists u,
    decimal s ++ replicate m 48%N = uint_chars u /\
    Z.of_uint u = s * 10 ^ Z.of_nat m /\
    decimal s ++ replicate m 48%N <> [].
Proof.
  intros Hs. destruct (decimal_nonneg s Hs) as (u & Eu & Ev & Hne).
  destruct (uint_chars_zeros u m) as (u' & Ec & Ev' & _).
  exists u'. rewrite Eu, Ec. split; [reflexivity |]. split.
  - unfold Z.of_uint in *. rewrite Ev', Ev. reflexivity.
  - rewrite <- Eu. intros H. apply app_eq_nil in H. destruct H; contradiction.
Qed.

Lemma count_digits_bound fuel x k :
  1 <= k -> x < 10 ^ k -> 1 <= count_digits fuel x <= k.
Proof.
  revert x k. induction fuel as [| fuel IH]; intros x k Hk Hx; simpl; [lia |].
  destruct (Z.ltb_spec x 10) as [Hs | Hs]; [lia |].
  assert (Hk2 : 2 <= k).
  { destruct (Z.eq_dec k 1) as [-> | Hne]; [| lia]. simpl in Hx. lia. }
  assert (Hq : x / 10 < 10 ^ (k - 1)).
  { apply Z.div_lt_upper_bound; [lia |].
    rewrite <- Z.pow_succ_r by lia. replace (Z.succ (k - 1)) with k by lia.
    exact Hx. }
  specialize (IH (x / 10) (k - 1) ltac:(lia) Hq). lia.
Qed.

Lemma digits_candidate_ok x k e s :
  digits_candidate x k e = Some s ->
  10 ^ (k - 1) <= s /\ round_to_double (s * 10 ^ e) = x.
Proof.
  intros H. unfold digits_candidate in H. cbv zeta in H.
  repeat match type of H with
         | context [if ?c then _ else _] => destruct c eqn:?
         end;
    try discriminate; injection H as <-;
    match goal with
    | Hc : (10 ^ (k - 1) <=? ?s) && _ && _ = true
      |- 10 ^ (k - 1) <= ?s /\ _ =>
        apply andb_prop in Hc as [Hc H3]; apply andb_prop in Hc as [H1 _];
        split; [apply Z.leb_le, H1 | apply Z.eqb_eq, H3]
    end.
Qed.

Lemma shortest_digits_ok fuel x n k s k' :
  0 <= x -> round_to_double x = x ->
  1 <= k -> k + Z.of_nat fuel <= n + 1 ->
  shortest_digits fuel x n k = (s, k') ->
  0 <= s /\ k' <= n /\ round_to_double (s * 10 ^ (n - k')) = x.
Proof.
  intros Hx Hd. revert k. induction fuel as [| fuel IH]; intros k Hk Hn; simpl.
  - intros [= <- <-]. rewrite Z.sub_diag. simpl.
    rewrite Z.mul_1_r. repeat split; [exact Hx | lia | exact Hd].
  - destruct (digits_candidate x k (n - k)) as [s0 |] eqn:E.
    + intros [= <- <-]. apply digits_candidate_ok in E as [Hs Hr].
      assert (0 < 10 ^ (k - 1)) by (apply Z.pow_pos_nonneg; lia).
      repeat split; [lia | lia | exact Hr].
    + apply IH; lia.
Qed.

(** A Number above 2^53 and below 1e21 prints as digits, which read as a
    decimal number whose nearest Number it is. *)
Lemma large_number_text_reads_back x :
  0 <= x < 10 ^ 21 -> round_to_double x = x ->
  exists u,
    large_number_text x = uint_chars u /\
    round_to_double (Z.of_uint u) = x /\
    large_number_text x <> [].
Proof.
  intros [Hx0 Hx] Hd. unfold large_number_text.
  destruct (Z.leb_spec (2 ^ 1024) x) as [Hinf | _].
  { exfalso. assert (10 ^ 21 < 2 ^ 1024) by (vm_compute; reflexivity). lia. }
  pose proof (count_digits_bound (Z.to_nat (Z.log2 x)) x 21 ltac:(lia) Hx)
    as Hnd.
  fold (decimal_length x) in Hnd. set (nd := decimal_length x) in *.
  destruct (Z.eqb_spec (round_to_double (10 ^ nd)) x) as [Hp | _].
  - assert (Hnd' : nd <> 21).
    { intros E. rewrite E in Hp. vm_compute in Hp. subst x.
      vm_compute in Hx. discriminate. }
    destruct (Z.leb_spec (nd + 1) 21) as [_ | ?]; [| lia].
    destruct (decimal_zeros 1 (Z.to_nat (nd + 1 - 1)) ltac:(lia))
      as (u & Eu & Ev & Hne).
    exists u. split; [exact Eu |]. split; [| exact Hne].
    rewrite Ev, Z2Nat.id, Z.mul_1_l by lia.
    replace (nd + 1 - 1) with nd by lia. exact Hp.
  - destruct (shortest_digits (Z.to_nat nd) x nd 1) as [s k] eqn:E.
    apply shortest_digits_ok in E as (Hs & Hk & Hr); auto; try lia.
    destruct (Z.leb_spec nd 21) as [_ | ?]; [| lia].
    destruct (decimal_zeros s (Z.to_nat (nd - k)) Hs) as (u & Eu & Ev & Hne).
    exists u. split; [exact Eu |]. split; [| exact Hne].
    rewrite Ev, Z2Nat.id by lia. exact Hr.
Qed.

(** The text of a Number from 0 up to, not including, 1e21 is a run of
    digits that reads as that Number. *)
Lemma toString_reads_back n :
  0 <= n < 10 ^ 21 -> round_to_double n = n ->
  exists u,
    toString n = uint_chars u /\
    round_to_double (Z.of_uint u) = n /\
    toString n <> [].
Proof.
  intros Hn Hd. unfold toString.
  destruct (Z.leb_spec (Z.abs n) 9007199254740992) as [Hs | Hs].
  - destruct (decimal_nonneg n ltac:(lia)) as (u & Eu & Ev & Hne).
    exists u. rewrite Ev. auto.
  - destruct (Z.ltb_spec n 0) as [? | _]; [lia |].
    rewrite Z.abs_eq, Hd by lia. simpl.
    apply large_number_text_reads_back; assumption.
Qed.

Lemma parseDecimal_digits k s u :
  s = uint_chars u -> s <> [] ->
  exists u',
    parseDecimal (fromNepaliDigits (toNepaliDigits (padStart k 48%N s)))
    = Some (Z.of_uint u') /\ Z.of_uint u' = Z.of_uint u.
Proof.
  intros E Hne.
  rewrite fromNepaliDigits_toNepaliDigits
    by (apply padStart_digits; rewrite E; apply uint_chars_digits).
  unfold padStart.
  destruct (chars_uint_zero_prefix (k - length s) s u)
    as (u' & E' & Hu'); [rewrite E; apply chars_uint_uint_chars |].
  exists u'. split; [| exact Hu'].
  unfold parseDecimal. rewrite E'.
  destruct (replicate (k - length s) 48%N ++ s) eqn:El; [| reflexivity].
  apply app_eq_nil in El. destruct El; contradiction.
Qed.

Lemma parseDecimal_padded k n :
  0 <= n <= 9007199254740992 ->
  parseDecimal (fromNepaliDigits (toNepaliDigits (padStart k 48%N (toString n))))
  = Some n.
Proof.
  intros Hn. destruct (toString_nonneg n Hn) as (u & E & Hu & Hne).
  destruct (parseDecimal_digits k (toString n) u E Hne) as (u' & -> & Eu').
  congruence.
Qed.

Lemma parseNumber_padded k n :
  0 <= n < 10 ^ 21 -> round_to_double n = n ->
  parseNumber (fromNepaliDigits (toNepaliDigits (padStart k 48%N (toString n))))
  = Some n.
Proof.
  intros Hn Hd. destruct (toString_reads_back n Hn Hd) as (u & E & Hu & Hne).
  unfold parseNumber.
  destruct (parseDecimal_digits k (toString n) u E Hne) as (u' & -> & Eu').
  rewrite Eu', Hu. reflexivity.
Qed.

Lemma small_number_cases (P : Z -> Prop) (bound : nat) :
  (forall k : nat, (k < bound)%nat -> P (Z.of_nat k)) ->
  forall n, 0 <= n < Z.of_nat bound -> P n.
Proof.
  intros H n Hn. replace n with (Z.of_nat (Z.to_nat n)) by lia.
  apply H. lia.
Qed.

Lemma pad2_length n :
  0 <= n < 100 ->
  length (toNepaliDigits (padStart 2 48%N (toString n))) = 2%nat.
Proof.
  revert n. apply (small_number_cases _ 100). intros k Hk.
  do 100 (destruct k as [| k]; [reflexivity |]). lia.
Qed.

Lemma pad2_leading_zero n :
  0 <= n < 10 ->
  toNepaliDigits (padStart 2 48%N (toString n)) !! 0%nat = Some 2406%N.
Proof.
  revert n. apply (small_number_cases _ 10). intros k Hk.
  do 10 (destruct k as [| k]; [reflexivity |]). lia.
Qed.

(** C8 (amended). For a date whose year is a Number from 0 up to, not
    including, 1e21 (where [String(year)] is a run of digits), with month in
    1..12 and day in 1..31, the short style of the shared library (and of the
    web copy, which is the same text) is the localized year, '-', the
    localized month and '-', the localized day; month and day are padded with
    '0' to two code units before they are localized (a month below 10 starts
    with the glyph of zero); and splitting on '-', undoing the localization
    and reading each field as a Number gives the date back.  Up to 2^53 the
    year's text is its decimal expansion, and reading the fields digit by
    digit gives the date back as well. *)
Theorem short_format_round_trip (MONTHS : list jsstring) (d : BSDate) :
  0 <= year d < 10 ^ 21 ->
  round_to_double (year d) = year d ->
  1 <= month d <= 12 ->
  1 <= day d <= 31 ->
  Shared.formatBSDate MONTHS d Shared.short
  = toNepaliDigits (toString (year d)) ++ [45%N]
    ++ toNepaliDigits (padStart 2 48%N (toString (month d))) ++ [45%N]
    ++ toNepaliDigits (padStart 2 48%N (toString (day d)))
  /\ Web.formatBSDate d Web.short = Shared.formatBSDate MONTHS d Shared.short
  /\ length (toNepaliDigits (padStart 2 48%N (toString (month d)))) = 2%nat
  /\ length (toNepaliDigits (padStart 2 48%N (toString (day d)))) = 2%nat
  /\ (month d < 10 ->
      toNepaliDigits (padStart 2 48%N (toString (month d))) !! 0%nat
      = Some 2406%N)
  /\ parseShortNumber (Shared.formatBSDate MONTHS d Shared.short) = Some d
  /\ (year d <= 9007199254740992 ->
      toString (year d) = decimal (year d) /\
      parseShort (Shared.formatBSDate MONTHS d Shared.short) = Some d).
Proof.
  intros Hy Hdbl Hm Hd. destruct d as [y m dd]; simpl in Hy, Hdbl, Hm, Hd.
  cbn [year month day].
  split; [reflexivity |]. split; [reflexivity |].
  split; [apply pad2_length; lia |]. split; [apply pad2_length; lia |].
  split; [intros; apply pad2_leading_zero; lia |].
  assert (Hmd : forall n, 1 <= n <= 31 -> 0 <= n <= 9007199254740992) by lia.
  assert (Hmr : forall n, 1 <= n <= 31 -> 0 <= n < 10 ^ 21) by lia.
  destruct (toString_reads_back y Hy Hdbl) as (uy & Ey & _ & _).
  destruct (toString_nonneg m ltac:(lia)) as (um & Em & _ & _).
  destruct (toString_nonneg dd ltac:(lia)) as (ud & Ed & _ & _).
  assert (Hsplit :
    split_on 45%N (Shared.formatBSDate MONTHS (mkBSDate y m dd) Shared.short)
    = [ toNepaliDigits (padStart 0 48%N (toString y));
        toNepaliDigits (padStart 2 48%N (toString m));
        toNepaliDigits (padStart 2 48%N (toString dd)) ]).
  { unfold Shared.formatBSDate, toNepaliDigitsNum. cbn [year month day app].
    rewrite split_on_app
      by (apply toNepaliDigits_no_separator; rewrite Ey;
          apply uint_chars_digits).
    rewrite split_on_app
      by (apply toNepaliDigits_no_separator, padStart_digits; rewrite Em;
          apply uint_chars_digits).
    rewrite split_on_no_separator
      by (apply toNepaliDigits_no_separator, padStart_digits; rewrite Ed;
          apply uint_chars_digits).
    reflexivity. }
  split.
  - unfold parseShortNumber. rewrite Hsplit.
    rewrite (parseNumber_padded 0 y Hy Hdbl).
    rewrite !parseNumber_padded
      by (try apply round_to_double_small; lia).
    reflexivity.
  - intros Hsafe. split; [apply toString_small; lia |].
    unfold parseShort. rewrite Hsplit.
    rewrite !parseDecimal_padded by lia. reflexivity.
Qed.

Lemma short_format_round_trip_witness :
  toNepaliDigits (toString 1152921504606846976)
  = [2407; 2407; 2411; 2408; 2415; 2408; 2407; 2411; 2406; 2410; 2412; 2406;
     2412; 2414; 2410; 2413; 2406; 2406; 2406]%N /\
  parseShortNumber
    (Shared.formatBSDate Web.BS_MONTHS (mkBSDate 1152921504606846976 9 14)
       Shared.short)
  = Some (mkBSDate 1152921504606846976 9 14).
Proof.
  split; [reflexivity |].
  refine (proj1 (proj2 (proj2 (proj2 (proj2 (proj2
            (short_format_round_trip Web.BS_MONTHS
               (mkBSDate 1152921504606846976 9 14) _ _ _ _))))))).
  - simpl. lia.
  - reflexivity.
  - simpl. lia.
  - simpl. lia.
Defined.

(** C8, as stated, fails for a year outside that range.  The sign of year -1
    is the separator itself: the short string splits into four fields.  The
    year 1e21 prints in exponent notation, as "1e+21": the year's field is
    no run of digits.  Neither string reads back as the date. *)
Lemma short_format_year_counterexample :
  (1 <= month (mkBSDate (-1) 1 1) <= 12 /\
   1 <= day (mkBSDate (-1) 1 1) <= 31 /\
   Shared.formatBSDate Web.BS_MONTHS (mkBSDate (-1) 1 1) Shared.short
   = [45; 2407; 45; 2406; 2407; 45; 2406; 2407]%N /\
   parseShortNumber (Shared.formatBSDate Web.BS_MONTHS (mkBSDate (-1) 1 1)
                       Shared.short)
   <> Some (mkBSDate (-1) 1 1) /\
   parseShort (Shared.formatBSDate Web.BS_MONTHS (mkBSDate (-1) 1 1)
                 Shared.short)
   <> Some (mkBSDate (-1) 1 1))
  /\ (round_to_double (10 ^ 21) = 10 ^ 21 /\
      1 <= month (mkBSDate (10 ^ 21) 1 1) <= 12 /\
      1 <= day (mkBSDate (10 ^ 21) 1 1) <= 31 /\
      Shared.formatBSDate Web.BS_MONTHS (mkBSDate (10 ^ 21) 1 1) Shared.short
      = [2407; 101; 43; 2408; 2407; 45; 2406; 2407; 45; 2406; 2407]%N /\
      parseShortNumber
        (Shared.formatBSDate Web.BS_MONTHS (mkBSDate (10 ^ 21) 1 1)
           Shared.short)
      <> Some (mkBSDate (10 ^ 21) 1 1) /\
      parseShort
        (Shared.formatBSDate Web.BS_MONTHS (mkBSDate (10 ^ 21) 1 1)
           Shared.short)
      <> Some (mkBSDate (10 ^ 21) 1 1)).
Proof.
  split.
  - split; [simpl; lia |]. split; [simpl; lia |]. split; [reflexivity |].
    split; vm_compute; discriminate.
  - split; [reflexivity |]. split; [simpl; lia |]. split; [simpl; lia |].
    split; [reflexivity |]. split; vm_compute; discriminate.
Qed.

(** Between 2^53 and 1e21 the year's text is the shortest run of digits that
    identifies the Number, not its decimal expansion: 2^60 is
    1152921504606846976 and prints as 1152921504606847000, which read digit
    by digit is another integer and read as a Number is 2^60 again. *)
Example short_format_year_2_60 :
  toString (2 ^ 60)
  = [49; 49; 53; 50; 57; 50; 49; 53; 48; 52; 54; 48; 54; 56; 52; 55; 48; 48;
     48]%N
  /\ parseShort (Shared.formatBSDate Web.BS_MONTHS (mkBSDate (2 ^ 60) 9 14)
                   Shared.short)
     = Some (mkBSDate 1152921504606847000 9 14)
  /\ parseShortNumber
       (Shared.formatBSDate Web.BS_MONTHS (mkBSDate (2 ^ 60) 9 14)
          Shared.short)
     = Some (mkBSDate (2 ^ 60) 9 14).
Proof. repeat split; vm_compute; reflexivity. Qed.


(** * Further properties of the converters *)

Section SpanTheory.
Variable D : Z -> Z -> Z.
Hypothesis D_pos : forall y m, 1 <= m <= 12 -> 1 <= D y m.



End SpanTheory.

Lemma day_index_next REF x :
  day_index REF (x + msPerDay) = day_index REF x + 1.
Proof.
  unfold day_index.
  replace (x + msPerDay - REF) with (x - REF + 1 * msPerDay) by lia.
  apply Z.div_add. discriminate.
Qed.

Lemma shared_year_sum (DATA : gmap Z (list Z)) y :
  (forall row, DATA !! y = Some row -> length row = 12%nat) ->
  Shared.getDaysInBSMonth DATA y 1 + Shared.getDaysInBSMonth DATA y 2
  + Shared.getDaysInBSMonth DATA y 3 + Shared.getDaysInBSMonth DATA y 4
  + Shared.getDaysInBSMonth DATA y 5 + Shared.getDaysInBSMonth DATA y 6
  + Shared.getDaysInBSMonth DATA y 7 + Shared.getDaysInBSMonth DATA y 8
  + Shared.getDaysInBSMonth DATA y 9 + Shared.getDaysInBSMonth DATA y 10
  + Shared.getDaysInBSMonth DATA y 11 + Shared.getDaysInBSMonth DATA y 12
  = Shared.getDaysInBSYear DATA y.
Proof.
  intros Hlen. unfold Shared.getDaysInBSMonth, Shared.getDaysInBSYear.
  destruct (DATA !! y) as [row |]; [| reflexivity].
  specialize (Hlen row eq_refl).
  do 12 (destruct row as [| ? row]; [discriminate |]).
  destruct row; [| discriminate]. simpl. lia.
Qed.







Lemma mobile_table_rows :
  map_Forall (fun _ row => length row = 12%nat /\ Forall (fun x => 0 < x) row)
    Mobile.bsMonthDays.
Proof. apply (bool_decide_unpack _). vm_compute. exact I. Qed.

Lemma mobile_year_sum y :
  Mobile.getDaysInBSMonth y 1 + Mobile.getDaysInBSMonth y 2
  + Mobile.getDaysInBSMonth y 3 + Mobile.getDaysInBSMonth y 4
  + Mobile.getDaysInBSMonth y 5 + Mobile.getDaysInBSMonth y 6
  + Mobile.getDaysInBSMonth y 7 + Mobile.getDaysInBSMonth y 8
  + Mobile.getDaysInBSMonth y 9 + Mobile.getDaysInBSMonth y 10
  + Mobile.getDaysInBSMonth y 11 + Mobile.getDaysInBSMonth y 12
  = Mobile.getDaysInBSYear y.
Proof.
  unfold Mobile.getDaysInBSMonth, Mobile.getDaysInBSYear.
  destruct (Mobile.bsMonthDays !! y) as [row |] eqn:E; [| reflexivity].
  destruct (map_Forall_lookup_1 _ _ _ _ mobile_table_rows E) as [Hlen HF].
  do 12 (destruct row as [| ? row]; [discriminate |]).
  destruct row; [| discriminate].
  repeat match goal with
         | H : Forall _ (_ :: _) |- _ =>
             apply Forall_cons in H; destruct H as [? H]
         end.
  unfold Mobile.or30. simpl.
  repeat match goal with
         | |- context [?a =? 0] => destruct (Z.eqb_spec a 0); [lia |]
         end.
  lia.
Qed.

(** X3. The twelve month lengths of a year add up to the year length: in the
    shared library when the year's row has twelve entries or the year has no
    row, in the mobile copy for every year. *)
Theorem year_length_is_month_sum (DATA : gmap Z (list Z)) (y : Z) :
  (forall row, DATA !! y = Some row -> length row = 12%nat) ->
  Shared.getDaysInBSMonth DATA y 1 + Shared.getDaysInBSMonth DATA y 2
  + Shared.getDaysInBSMonth DATA y 3 + Shared.getDaysInBSMonth DATA y 4
  + Shared.getDaysInBSMonth DATA y 5 + Shared.getDaysInBSMonth DATA y 6
  + Shared.getDaysInBSMonth DATA y 7 + Shared.getDaysInBSMonth DATA y 8
  + Shared.getDaysInBSMonth DATA y 9 + Shared.getDaysInBSMonth DATA y 10
  + Shared.getDaysInBSMonth DATA y 11 + Shared.getDaysInBSMonth DATA y 12
  = Shared.getDaysInBSYear DATA y
  /\ Mobile.getDaysInBSMonth y 1 + Mobile.getDaysInBSMonth y 2
     + Mobile.getDaysInBSMonth y 3 + Mobile.getDaysInBSMonth y 4
     + Mobile.getDaysInBSMonth y 5 + Mobile.getDaysInBSMonth y 6
     + Mobile.getDaysInBSMonth y 7 + Mobile.getDaysInBSMonth y 8
     + Mobile.getDaysInBSMonth y 9 + Mobile.getDaysInBSMonth y 10
     + Mobile.getDaysInBSMonth y 11 + Mobile.getDaysInBSMonth y 12
     = Mobile.getDaysInBSYear y.
Proof.
  intros Hlen. split; [apply shared_year_sum; exact Hlen |].
  apply mobile_year_sum.
Qed.

Lemma year_length_is_month_sum_witness :
  Shared.getDaysInBSYear Web.BS_CALENDAR_DATA 2080 = 366 /\
  Mobile.getDaysInBSYear 2080 = 365.
Proof.
  assert (Hl : forall row,
             Web.BS_CALENDAR_DATA !! 2080 = Some row -> length row = 12%nat)
    by (intros row E; vm_compute in E; injection E as <-; reflexivity).
  destruct (year_length_is_month_sum Web.BS_CALENDAR_DATA 2080 Hl)
    as [H1 H2].
  split; [rewrite <- H1 | rewrite <- H2]; reflexivity.
Defined.

Lemma day_index_reference_day REF x :
  REF <= x < REF + msPerDay -> day_index REF x = 0.
Proof.
  intros H. unfold day_index. apply Z.div_small. lia.
Qed.

(** X4. The fixed point of the anchor, for any table: every instant of the
    reference day converts to 2080-01-01 in all three copies without a single
    loop turn, and [bsToAD] of 2080-01-01 is the reference instant: it is
    the reference taken to local time and back, which is the reference itself
    when the zone gives the reference's local time the offset it has at the
    reference (any local time that the clock does not show twice) and the
    reference is a valid time value. *)
Theorem reference_day_fixed_point
    (DATA : gmap Z (list Z)) (REF x : Z) (tz : TimeZone) :
  REF <= x < REF + msPerDay ->
  Shared.adToBS DATA REF 0 x = Ret BS_REFERENCE
  /\ Web.adToBS REF 0 x = Ret BS_REFERENCE
  /\ Mobile.adToBS REF 0 x = Ret Mobile.refBSDate
  /\ Shared.bsToAD DATA REF tz 0 BS_REFERENCE
     = Ret (TimeClip (UTC tz (LocalTime tz REF)))
  /\ (LocalTZA_local tz (LocalTime tz REF) = LocalTZA_utc tz REF ->
      Z.abs REF <= 8640000000000000 ->
      Shared.bsToAD DATA REF tz 0 BS_REFERENCE = Ret (Some REF)).
Proof.
  intros H. pose proof (day_index_reference_day REF x H) as E.
  unfold day_index in E.
  assert (Eb : Shared.bsToAD DATA REF tz 0 BS_REFERENCE
               = Ret (TimeClip (UTC tz (LocalTime tz REF)))).
  { unfold Shared.bsToAD, setDate_getDate_plus. simpl.
    do 3 f_equal. lia. }
  unfold Shared.adToBS, Web.adToBS, Mobile.adToBS.
  rewrite E. simpl. repeat split; [exact Eb |].
  intros Ho Hr. rewrite Eb. do 2 f_equal.
  replace (UTC tz (LocalTime tz REF)) with REF
    by (unfold UTC; rewrite Ho; unfold LocalTime; lia).
  apply TimeClip_in_range, Hr.
Qed.

Lemma reference_day_fixed_point_witness :
  Shared.adToBS Web.BS_CALENDAR_DATA AD_REFERENCE_Kathmandu 0
    (AD_REFERENCE_Kathmandu + 86399999) = Ret BS_REFERENCE
  /\ Shared.bsToAD Web.BS_CALENDAR_DATA AD_REFERENCE_Kathmandu
       zone_plus_0545 0 BS_REFERENCE
     = Ret (Some AD_REFERENCE_Kathmandu).
Proof.
  destruct (reference_day_fixed_point Web.BS_CALENDAR_DATA
              AD_REFERENCE_Kathmandu (AD_REFERENCE_Kathmandu + 86399999)
              zone_plus_0545) as (H1 & _ & _ & _ & H5).
  - unfold msPerDay. lia.
  - split; [exact H1 |]. apply H5; [reflexivity |].
    unfold AD_REFERENCE_Kathmandu. lia.
Defined.

(** X5. One day later is the next date: in the shared library and in the
    mobile copy, [adToBS] of an instant plus a day is the date after [adToBS]
    of the instant, that is the next day of the month or, after the month's
    last day, the first day of the following month (of the following year
    after month 12). *)
Theorem adToBS_next_day
    (DATA : gmap Z (list Z)) (REF x : Z) (fuel : nat) :
  table_positive DATA ->
  (Z.to_nat (Z.abs (day_index REF x)) + 1 <= fuel)%nat ->
  (exists d,
      Shared.adToBS DATA REF fuel x = Ret d /\
      Shared.adToBS DATA REF fuel (x + msPerDay)
      = Ret (next_day (Shared.getDaysInBSMonth DATA) d))
  /\ (exists d,
      Mobile.adToBS REF fuel x = Ret d /\
      Mobile.adToBS REF fuel (x + msPerDay)
      = Ret (next_day Mobile.getDaysInBSMonth d)).
Proof.
  intros Hpos Hf. split.
  - eexists. split; [apply shared_adToBS_walk; [exact Hpos | lia] |].
    rewrite shared_adToBS_walk; [| exact Hpos | rewrite day_index_next; lia].
    rewrite day_index_next, walk_succ; [reflexivity |].
    apply shared_D_pos; exact Hpos.
  - eexists. split; [apply mobile_adToBS_walk; lia |].
    rewrite mobile_adToBS_walk by (rewrite day_index_next; lia).
    rewrite day_index_next, walk_succ; [reflexivity | exact mobile_D_pos].
Qed.

Lemma adToBS_next_day_witness :
  exists d,
    Mobile.adToBS AD_REFERENCE_Kathmandu 1000 1766966400000 = Ret d /\
    Mobile.adToBS AD_REFERENCE_Kathmandu 1000 (1766966400000 + msPerDay)
    = Ret (next_day Mobile.getDaysInBSMonth d).
Proof.
  assert (Hp : table_positive Web.BS_CALENDAR_DATA)
    by (apply (bool_decide_unpack _); vm_compute; exact I).
  refine (proj2 (adToBS_next_day Web.BS_CALENDAR_DATA AD_REFERENCE_Kathmandu
                   1766966400000 1000 Hp _)).
  apply Nat.leb_le. vm_compute. reflexivity.
Defined.



Lemma bsToAD_forward_unreachable_day D
    (D_pos : forall y m, 1 <= m <= 12 -> 1 <= D y m) (t : BSDate) :
  (forall y m, 1 <= m <= 12 -> D y m < day t) ->
  forall fuel acc c,
    valid_date D c -> bsToAD_forward D fuel t acc c = Fuel.
Proof.
  intros Hbig. induction fuel as [| fuel IH]; intros acc c Hv;
    pose proof Hv as [Hm Hd]; pose proof (Hbig (year c) (month c) Hm);
    simpl;
    (destruct (Z.ltb_spec (day c) (day t)) as [_ | Hge]; [| lia]);
    rewrite orb_true_r; [reflexivity |].
  apply IH, next_day_valid; assumption.
Qed.

(** X7. [bsToAD] of the shared library never returns for a date on or after
    the anchor whose day number exceeds every month length of the table and of
    the default pattern: the forward loop keeps walking, whatever the fuel. *)
Theorem bsToAD_never_returns_for_overlong_day
    (DATA : gmap Z (list Z)) (REF : Z) (tz : TimeZone) (d : BSDate)
    (fuel : nat) :
  table_positive DATA ->
  map_Forall (fun _ row => Forall (fun x => x < day d) row) DATA ->
  32 < day d ->
  2080 < year d \/ (year d = 2080 /\ 1 <= month d) ->
  Shared.bsToAD DATA REF tz fuel d = Fuel.
Proof.
  intros Hpos Hrows Hday Hafter.
  assert (Hbig : forall y m, 1 <= m <= 12 ->
                   Shared.getDaysInBSMonth DATA y m < day d).
  { intros y m _. unfold Shared.getDaysInBSMonth.
    destruct (DATA !! y) as [row |] eqn:E.
    - pose proof (map_Forall_lookup_1 _ _ _ _ Hrows E) as HF.
      unfold js_index. destruct (m - 1 <? 0); simpl; [lia |].
      destruct (row !! Z.to_nat (m - 1)) as [v |] eqn:Ev; simpl; [| lia].
      exact (Forall_lookup_1 _ _ _ _ HF Ev).
    - unfold js_index. destruct (m - 1 <? 0); simpl; [lia |].
      destruct (Shared.defaultDays !! Z.to_nat (m - 1)) as [v |] eqn:Ev;
        simpl; [| lia].
      assert (HF : Forall (fun x => x <= 32) Shared.defaultDays)
        by (unfold Shared.defaultDays; repeat constructor; lia).
      pose proof (Forall_lookup_1 _ _ _ _ HF Ev). simpl in *. lia. }
  unfold Shared.bsToAD.
  assert (Htest :
    (year BS_REFERENCE <? year d)
    || ((year d =? year BS_REFERENCE) && (month BS_REFERENCE <? month d))
    || ((year d =? year BS_REFERENCE) && (month d =? month BS_REFERENCE)
        && (day BS_REFERENCE <=? day d)) = true).
  { simpl.
    destruct (Z.ltb_spec 2080 (year d)), (Z.eqb_spec (year d) 2080),
      (Z.ltb_spec 1 (month d)), (Z.eqb_spec (month d) 1),
      (Z.leb_spec 1 (day d)); simpl; auto; lia. }
  rewrite Htest.
  rewrite (bsToAD_forward_unreachable_day _ (shared_D_pos DATA Hpos) d Hbig).
  - reflexivity.
  - apply reference_valid, shared_D_pos; exact Hpos.
Qed.

Lemma bsToAD_never_returns_for_overlong_day_witness :
  Shared.bsToAD Web.BS_CALENDAR_DATA AD_REFERENCE_Kathmandu zone_plus_0545
    4000 (mkBSDate 2081 1 33) = Fuel.
Proof.
  apply bsToAD_never_returns_for_overlong_day.
  - apply (bool_decide_unpack _). vm_compute. exact I.
  - apply (bool_decide_unpack _). vm_compute. exact I.
  - simpl. lia.
  - left. simpl. lia.
Defined.


(** ** Month lengths of the in-tree tables *)

Lemma web_table_bounds :
  map_Forall
    (fun _ row => length row = 12%nat /\ Forall (fun x => 29 <= x <= 32) row)
    Web.BS_CALENDAR_DATA.
Proof. apply (bool_decide_unpack _). vm_compute. exact I. Qed.

Lemma mobile_table_bounds :
  map_Forall
    (fun _ row => length row = 12%nat /\ Forall (fun x => 29 <= x <= 32) row)
    Mobile.bsMonthDays.
Proof. apply (bool_decide_unpack _). vm_compute. exact I. Qed.

Lemma js_index_defined {A} (row : list A) m :
  length row = 12%nat -> 1 <= m <= 12 ->
  exists v, js_index row (m - 1) = Some v /\ row !! Z.to_nat (m - 1) = Some v.
Proof.
  intros Hlen Hm. unfold js_index.
  destruct (Z.ltb_spec (m - 1) 0); [lia |].
  destruct (lookup_lt_is_Some_2 row (Z.to_nat (m - 1))) as [v Hv]; [lia |].
  eauto.
Qed.

Lemma web_days_bounds y m :
  1 <= m <= 12 ->
  exists v, Web.getDaysInBSMonth y m = Some v /\ 29 <= v <= 32.
Proof.
  intros Hm. unfold Web.getDaysInBSMonth.
  destruct (Web.BS_CALENDAR_DATA !! y) as [row |] eqn:E.
  - destruct (map_Forall_lookup_1 _ _ _ _ web_table_bounds E) as [Hlen HF].
    destruct (js_index_defined row m Hlen Hm) as (v & -> & Hv).
    exists v. split; [reflexivity |]. exact (Forall_lookup_1 _ _ _ _ HF Hv).
  - exists 30. split; [reflexivity | lia].
Qed.

Lemma mobile_days_bounds y m :
  1 <= m <= 12 -> 29 <= Mobile.getDaysInBSMonth y m <= 32.
Proof.
  intros Hm. unfold Mobile.getDaysInBSMonth.
  destruct (Mobile.bsMonthDays !! y) as [row |] eqn:E.
  - destruct (map_Forall_lookup_1 _ _ _ _ mobile_table_bounds E) as [Hlen HF].
    destruct (js_index_defined row m Hlen Hm) as (v & -> & Hv).
    pose proof (Forall_lookup_1 _ _ _ _ HF Hv) as Hb. simpl in Hb.
    unfold Mobile.or30. destruct (Z.eqb_spec v 0); lia.
  - destruct (js_index_defined
                [31; 31; 32; 31; 31; 31; 30; 29; 30; 29; 30; 30] m eq_refl Hm)
      as (v & -> & Hv).
    assert (HF : Forall (fun x => 29 <= x <= 32)
                   [31; 31; 32; 31; 31; 31; 30; 29; 30; 29; 30; 30])
      by (repeat constructor; lia).
    pose proof (Forall_lookup_1 _ _ _ _ HF Hv) as Hb. simpl in Hb.
    unfold Mobile.or30. destruct (Z.eqb_spec v 0); lia.
Qed.

(** X8. In the web and the mobile copy every month 1..12 of every year has
    between 29 and 32 days, so the day of an [adToBS] result lies in 1..32;
    32 does occur (the second month of 2080 in the web copy), beyond the
    1..31 of a calendar date. *)
Theorem in_tree_month_lengths (REF x y m : Z) (fuel : nat) :
  1 <= m <= 12 ->
  (Z.to_nat (Z.abs (day_index REF x)) <= fuel)%nat ->
  (exists v, Web.getDaysInBSMonth y m = Some v /\ 29 <= v <= 32)
  /\ 29 <= Mobile.getDaysInBSMonth y m <= 32
  /\ (exists d, Web.adToBS REF fuel x = Ret d /\ 1 <= day d <= 32)
  /\ (exists d, Mobile.adToBS REF fuel x = Ret d /\ 1 <= day d <= 32)
  /\ Web.adToBS REF 62 (REF + 62 * msPerDay) = Ret (mkBSDate 2080 2 32).
Proof.
  intros Hm Hf. split; [apply web_days_bounds; exact Hm |].
  split; [apply mobile_days_bounds; exact Hm |]. split; [| split].
  - eexists. split; [apply web_adToBS_walk; exact Hf |].
    destruct (walk_valid _ web_D_pos (day_index REF x)) as [Hmo Hd].
    destruct (web_days_bounds
                (year (walk (fun y m => default 30 (Web.getDaysInBSMonth y m))
                         (day_index REF x)))
                (month (walk (fun y m => default 30 (Web.getDaysInBSMonth y m))
                          (day_index REF x))) Hmo) as (v & E & Hv).
    rewrite E in Hd. simpl in Hd. lia.
  - eexists. split; [apply mobile_adToBS_walk; exact Hf |].
    destruct (walk_valid _ mobile_D_pos (day_index REF x)) as [Hmo Hd].
    pose proof (mobile_days_bounds
                  (year (walk Mobile.getDaysInBSMonth (day_index REF x)))
                  _ Hmo).
    lia.
  - rewrite web_adToBS_walk by (rewrite day_index_shift; lia).
    rewrite day_index_shift. vm_compute. reflexivity.
Qed.

Lemma in_tree_month_lengths_witness :
  exists d,
    Web.adToBS AD_REFERENCE_Kathmandu 1000 1766966400000 = Ret d /\
    1 <= day d <= 32.
Proof.
  refine (proj1 (proj2 (proj2 (in_tree_month_lengths AD_REFERENCE_Kathmandu
                                 1766966400000 2080 1 1000 _ _)))).
  - lia.
  - apply Nat.leb_le. vm_compute. reflexivity.
Defined.

(** X9. A month outside 1..12: the shared library (row of at most twelve
    entries, or no row) and the mobile copy answer 30; the web copy answers 30
    for a year without row and [undefined] for a year of its table. *)
Theorem month_out_of_range_length (DATA : gmap Z (list Z)) (y m : Z) :
  m < 1 \/ 12 < m ->
  (forall row, DATA !! y = Some row -> (length row <= 12)%nat) ->
  Shared.getDaysInBSMonth DATA y m = 30
  /\ Mobile.getDaysInBSMonth y m = 30
  /\ Web.getDaysInBSMonth y m
     = match Web.BS_CALENDAR_DATA !! y with
       | Some _ => None
       | None => Some 30
       end.
Proof.
  intros Hm Hlen.
  assert (Hnone : forall (row : list Z), (length row <= 12)%nat ->
                    js_index row (m - 1) = None).
  { intros row Hl. unfold js_index.
    destruct (Z.ltb_spec (m - 1) 0); [reflexivity |].
    apply lookup_ge_None_2. lia. }
  split; [| split].
  - unfold Shared.getDaysInBSMonth.
    destruct (DATA !! y) as [row |] eqn:E.
    + rewrite (Hnone row (Hlen row eq_refl)). reflexivity.
    + rewrite (Hnone Shared.defaultDays) by (simpl; lia). reflexivity.
  - unfold Mobile.getDaysInBSMonth.
    destruct (Mobile.bsMonthDays !! y) as [row |] eqn:E.
    + destruct (map_Forall_lookup_1 _ _ _ _ mobile_table_rows E) as [Hl _].
      rewrite (Hnone row) by lia. reflexivity.
    + rewrite Hnone by (simpl; lia). reflexivity.
  - unfold Web.getDaysInBSMonth.
    destruct (Web.BS_CALENDAR_DATA !! y) as [row |] eqn:E; [| reflexivity].
    destruct (map_Forall_lookup_1 _ _ _ _ web_table_rows E) as [Hl _].
    apply Hnone. lia.
Qed.

Lemma month_out_of_range_length_witness :
  Shared.getDaysInBSMonth Web.BS_CALENDAR_DATA 2082 13 = 30 /\
  Mobile.getDaysInBSMonth 2082 13 = 30 /\
  Web.getDaysInBSMonth 2082 13 = None.
Proof.
  refine (month_out_of_range_length Web.BS_CALENDAR_DATA 2082 13 _ _).
  - right. lia.
  - intros row E. vm_compute in E. injection E as <-. simpl. lia.
Defined.

(** X10. The two loop designs agree: for any month-length function that is
    positive on the months 1..12, the month-skipping loops of the shared
    library and the web copy and the add-then-normalise loops of the mobile
    copy return the same date for the same day offset from the anchor. *)
Theorem loop_designs_agree (D : Z -> Z -> Z) (n : Z) (fuel : nat) :
  (forall y m, 1 <= m <= 12 -> 1 <= D y m) ->
  (Z.to_nat (Z.abs n) <= fuel)%nat ->
  run_bind
    (if 0 <=? n
     then adToBS_forward (fun y m => Some (D y m)) fuel n
            (year BS_REFERENCE) (month BS_REFERENCE) (day BS_REFERENCE)
     else adToBS_backward (fun y m => Some (D y m)) fuel n
            (year BS_REFERENCE) (month BS_REFERENCE) (day BS_REFERENCE))
    (fun st => Ret (snd st))
  = (if 0 <=? n
     then mobile_forward D fuel (year BS_REFERENCE) (month BS_REFERENCE)
            (day BS_REFERENCE + n)
     else mobile_backward D fuel (year BS_REFERENCE) (month BS_REFERENCE)
            (day BS_REFERENCE + n)).
Proof.
  intros D_pos Hf. pose proof (reference_valid D D_pos) as Hr.
  destruct (Z.leb_spec 0 n) as [Hn | Hn].
  - rewrite (adToBS_forward_iter D D_pos); auto; try lia.
    rewrite (mobile_forward_iter D D_pos); simpl; try lia.
    replace (Z.to_nat (1 + n - 1)) with (Z.to_nat n) by lia. reflexivity.
  - rewrite (adToBS_backward_iter D D_pos); auto; try lia.
    rewrite (mobile_backward_iter D D_pos); simpl; try lia.
    replace (Z.to_nat (1 - (1 + n))) with (Z.to_nat (- n)) by lia.
    reflexivity.
Qed.

Lemma loop_designs_agree_witness :
  run_bind
    (if 0 <=? 40
     then adToBS_forward (fun y m => Some (Mobile.getDaysInBSMonth y m))
            40 40
            (year BS_REFERENCE) (month BS_REFERENCE) (day BS_REFERENCE)
     else adToBS_backward (fun y m => Some (Mobile.getDaysInBSMonth y m))
            40 40
            (year BS_REFERENCE) (month BS_REFERENCE) (day BS_REFERENCE))
    (fun st => Ret (snd st))
  = (if 0 <=? 40
     then mobile_forward Mobile.getDaysInBSMonth 40
            (year BS_REFERENCE) (month BS_REFERENCE) (day BS_REFERENCE + 40)
     else mobile_backward Mobile.getDaysInBSMonth 40
            (year BS_REFERENCE) (month BS_REFERENCE) (day BS_REFERENCE + 40)).
Proof.
  apply (loop_designs_agree Mobile.getDaysInBSMonth 40 40).
  - intros y m _. apply mobile_days_pos.
  - lia.
Defined.


(** * Further properties of the digit localizer *)

Lemma toNepaliDigits_app a b :
  toNepaliDigits (a ++ b) = toNepaliDigits a ++ toNepaliDigits b.
Proof. unfold toNepaliDigits. rewrite map_app, concat_app. reflexivity. Qed.

Lemma localized_not_ascii_digit c :
  is_ascii_digit (if is_ascii_digit c then (2406 + (c - 48))%N else c)
  = false.
Proof.
  destruct (is_ascii_digit c) eqn:E; [| exact E].
  destruct (ascii_digit_cases c E)
    as [-> |[-> |[-> |[-> |[-> |[-> |[-> |[-> |[-> | ->]]]]]]]]];
    reflexivity.
Qed.

(** X11. [toNepaliDigits] is idempotent, localizing a localized string
    changes nothing, and it distributes over concatenation. *)
Theorem toNepaliDigits_idempotent (s a b : jsstring) :
  toNepaliDigits (toNepaliDigits s) = toNepaliDigits s
  /\ toNepaliDigits (a ++ b) = toNepaliDigits a ++ toNepaliDigits b.
Proof.
  split; [| apply toNepaliDigits_app].
  induction s as [| c s IH]; [reflexivity |].
  rewrite toNepaliDigits_cons. rewrite toNepaliDigits_cons.
  rewrite localized_not_ascii_digit, IH. reflexivity.
Qed.

Lemma toNepaliDigits_all_glyphs s :
  Forall (fun c => is_ascii_digit c = true) s ->
  Forall is_nepali_digit (toNepaliDigits s).
Proof.
  induction 1 as [| c s Hc _ IH]; [constructor |].
  rewrite toNepaliDigits_cons, Hc. constructor; [| exact IH].
  unfold is_nepali_digit.
  destruct (ascii_digit_cases c Hc)
    as [-> |[-> |[-> |[-> |[-> |[-> |[-> |[-> |[-> | ->]]]]]]]]]; lia.
Qed.

Lemma pos_to_uint_chars_nonempty p : uint_chars (Pos.to_uint p) <> [].
Proof.
  intros Hnil. pose proof (DecimalPos.Unsigned.of_to p) as Hp.
  destruct (Pos.to_uint p); simpl in *; discriminate.
Qed.

(** The text of a number is the sign and the text of its absolute value. *)
Lemma toString_abs n :
  toString n = (if n <? 0 then [45%N] else []) ++ toString (Z.abs n).
Proof.
  unfold toString. rewrite Z.abs_idemp.
  destruct (Z.abs n <=? 9007199254740992).
  - destruct n as [| p | p]; reflexivity.
  - destruct (Z.ltb_spec (Z.abs n) 0) as [H | _]; [lia | reflexivity].
Qed.

(** X12. [toNepaliDigits] of a Number that is an integer below 1e21 in
    absolute value: a leading '-' of a negative number passes through, and
    what follows is a non-empty run of Devanagari digits, one for each digit
    of the text of the absolute value; no ASCII digit is left. *)
Theorem toNepaliDigits_of_number (n : Z) :
  Z.abs n < 10 ^ 21 ->
  round_to_double (Z.abs n) = Z.abs n ->
  exists digits,
    toNepaliDigitsNum n = (if n <? 0 then [45%N] else []) ++ digits /\
    digits <> [] /\
    Forall is_nepali_digit digits /\
    length digits = length (toString (Z.abs n)).
Proof.
  intros Hn Hd.
  destruct (toString_reads_back (Z.abs n) ltac:(lia) Hd) as (u & Eu & _ & Hne).
  exists (toNepaliDigits (toString (Z.abs n))).
  split; [| split; [| split]].
  - unfold toNepaliDigitsNum. rewrite toString_abs, toNepaliDigits_app.
    destruct (n <? 0); reflexivity.
  - intros E. apply (f_equal length) in E.
    rewrite toNepaliDigits_length in E.
    destruct (toString (Z.abs n)); [contradiction | discriminate].
  - rewrite Eu. apply toNepaliDigits_all_glyphs, uint_chars_digits.
  - apply toNepaliDigits_length.
Qed.

Lemma toNepaliDigits_of_number_witness :
  exists digits,
    toNepaliDigitsNum (-1152921504606846976) = [45%N] ++ digits /\
    digits <> [] /\
    Forall is_nepali_digit digits /\
    length digits = 19%nat.
Proof.
  destruct (toNepaliDigits_of_number (-1152921504606846976))
    as (digits & H1 & H2 & H3 & H4).
  - simpl. lia.
  - reflexivity.
  - exists digits. split; [exact H1 |]. split; [exact H2 |].
    split; [exact H3 |]. rewrite H4. reflexivity.
Defined.


(** * Further properties of the relative-time functions *)

Lemma div_ltb a b c : 0 < b -> (a / b <? c) = (a <? b * c).
Proof.
  intros Hb.
  destruct (Z.ltb_spec (a / b) c) as [H | H], (Z.ltb_spec a (b * c)) as [H' | H'];
    try reflexivity; exfalso.
  - apply (Z.div_le_lower_bound a b c Hb) in H'. lia.
  - apply (Z.div_lt_upper_bound a b c Hb) in H'. lia.
Qed.

(** The tests of the shared library's function on the elapsed milliseconds
    and the elapsed whole days. *)
Lemma shared_relative_buckets DATA MONTHS REF fuel now date :
  Shared.getRelativeTimeNepali DATA MONTHS REF fuel now date =
  let e := now - date in
  let days := e / 86400000 in
  let absolute :=
    run_bind (Shared.adToBS DATA REF fuel date)
      (fun bs => Ret (Shared.formatBSDate MONTHS bs Shared.full)) in
  if e <? 0 then absolute
  else if e <? 60000 then Ret phrase_just_now
  else if e <? 3600000
  then Ret (toNepaliDigitsNum (e / 60000) ++ phrase_minutes_ago)
  else if e <? 86400000
  then Ret (toNepaliDigitsNum (e / 3600000) ++ phrase_hours_ago)
  else if days =? 1 then Ret phrase_yesterday
  else if days <? 7 then Ret (toNepaliDigitsNum days ++ phrase_days_ago)
  else if days / 7 =? 1 then Ret phrase_last_week
  else if days / 7 <? 4
  then Ret (toNepaliDigitsNum (days / 7) ++ phrase_weeks_ago)
  else if days / 30 =? 1 then Ret phrase_last_month
  else if days / 30 <? 12
  then Ret (toNepaliDigitsNum (days / 30) ++ phrase_months_ago)
  else absolute.
Proof.
  unfold Shared.getRelativeTimeNepali. cbv zeta.
  rewrite !Z.div_div by lia. rewrite !div_ltb by lia. reflexivity.
Qed.

Lemma web_relative_buckets REF fuel now date :
  Web.getRelativeTimeNepali REF fuel now date =
  let e := now - date in
  if e <? 60000 then Ret phrase_just_now
  else if e <? 3600000
  then Ret (toNepaliDigitsNum (e / 60000) ++ phrase_minutes_ago)
  else if e <? 86400000
  then Ret (toNepaliDigitsNum (e / 3600000) ++ phrase_hours_ago)
  else if e <? 604800000
  then Ret (toNepaliDigitsNum (e / 86400000) ++ phrase_days_ago)
  else run_bind (Web.adToBS REF fuel date)
         (fun bs => Ret (Web.formatBSDate bs Web.full)).
Proof.
  unfold Web.getRelativeTimeNepali. cbv zeta.
  rewrite !div_ltb by lia. reflexivity.
Qed.

Lemma mobile_relative_buckets REF fuel now date :
  Mobile.formatRelativeTime REF fuel now date =
  let e := now - date in
  if e <? 60000 then Ret phrase_now_mobile
  else if e <? 3600000
  then Ret (toNepaliDigitsNum (e / 60000) ++ phrase_minutes_ago)
  else if e <? 86400000
  then Ret (toNepaliDigitsNum (e / 3600000) ++ phrase_hours_ago)
  else if e <? 604800000
  then Ret (toNepaliDigitsNum (e / 86400000) ++ phrase_days_ago)
  else run_bind (Mobile.adToBS REF fuel date)
         (fun bs => Ret (Mobile.formatBSDate bs)).
Proof.
  unfold Mobile.formatRelativeTime. cbv zeta.
  rewrite !div_ltb by lia. reflexivity.
Qed.

Ltac decide_tests :=
  repeat match goal with
         | |- context [?a <? ?b] =>
             destruct (Z.ltb_spec a b); try (exfalso; lia)
         | |- context [?a =? ?b] =>
             destruct (Z.eqb_spec a b); try (exfalso; lia)
         end.

(** X13. Less than a day ago, the three copies bucket alike: under a minute
    the fixed "just now" phrase (the mobile copy has its own), under an hour
    the whole minutes (1..59) with "minutes ago", else the whole hours
    (1..23) with "hours ago", numbers in Devanagari digits. *)
Theorem relative_time_within_a_day
    (DATA : gmap Z (list Z)) (MONTHS : list jsstring) (REF : Z)
    (fuel : nat) (now date : Z) :
  0 <= now - date < 86400000 ->
  Shared.getRelativeTimeNepali DATA MONTHS REF fuel now date
  = Ret (if now - date <? 60000 then phrase_just_now
         else if now - date <? 3600000
         then toNepaliDigitsNum ((now - date) / 60000) ++ phrase_minutes_ago
         else toNepaliDigitsNum ((now - date) / 3600000) ++ phrase_hours_ago)
  /\ Web.getRelativeTimeNepali REF fuel now date
     = Shared.getRelativeTimeNepali DATA MONTHS REF fuel now date
  /\ Mobile.formatRelativeTime REF fuel now date
     = Ret (if now - date <? 60000 then phrase_now_mobile
            else if now - date <? 3600000
            then toNepaliDigitsNum ((now - date) / 60000)
                 ++ phrase_minutes_ago
            else toNepaliDigitsNum ((now - date) / 3600000)
                 ++ phrase_hours_ago)
  /\ (60000 <= now - date < 3600000 -> 1 <= (now - date) / 60000 <= 59)
  /\ (3600000 <= now - date -> 1 <= (now - date) / 3600000 <= 23).
Proof.
  intros H.
  rewrite shared_relative_buckets, web_relative_buckets,
    mobile_relative_buckets. cbv zeta.
  repeat split; try (decide_tests; reflexivity);
    intros; Z.div_mod_to_equations; lia.
Qed.

Lemma relative_time_within_a_day_witness :
  Shared.getRelativeTimeNepali Web.BS_CALENDAR_DATA Web.BS_MONTHS
    AD_REFERENCE_Kathmandu 0 1767009600000 1767002400000
  = Ret ([2408%N] ++ phrase_hours_ago).
Proof.
  refine (eq_trans
            (proj1 (relative_time_within_a_day Web.BS_CALENDAR_DATA
                      Web.BS_MONTHS AD_REFERENCE_Kathmandu 0
                      1767009600000 1767002400000 _)) _).
  - lia.
  - reflexivity.
Defined.

(** X14. From two up to seven days ago, the three copies return the whole
    days (2..6) in Devanagari digits with "days ago". *)
Theorem relative_time_days_bucket
    (DATA : gmap Z (list Z)) (MONTHS : list jsstring) (REF : Z)
    (fuel : nat) (now date : Z) :
  172800000 <= now - date < 604800000 ->
  Shared.getRelativeTimeNepali DATA MONTHS REF fuel now date
  = Ret (toNepaliDigitsNum ((now - date) / 86400000) ++ phrase_days_ago)
  /\ Web.getRelativeTimeNepali REF fuel now date
     = Ret (toNepaliDigitsNum ((now - date) / 86400000) ++ phrase_days_ago)
  /\ Mobile.formatRelativeTime REF fuel now date
     = Ret (toNepaliDigitsNum ((now - date) / 86400000) ++ phrase_days_ago)
  /\ 2 <= (now - date) / 86400000 <= 6.
Proof.
  intros H.
  assert (Hd : 2 <= (now - date) / 86400000 <= 6)
    by (Z.div_mod_to_equations; lia).
  rewrite shared_relative_buckets, web_relative_buckets,
    mobile_relative_buckets. cbv zeta.
  repeat split; try lia; decide_tests; reflexivity.
Qed.

Lemma relative_time_days_bucket_witness :
  Mobile.formatRelativeTime AD_REFERENCE_Kathmandu 0
    1767009600000 1766750400000
  = Ret ([2409%N] ++ phrase_days_ago).
Proof.
  refine (eq_trans
            (proj1 (proj2 (proj2
               (relative_time_days_bucket Web.BS_CALENDAR_DATA Web.BS_MONTHS
                  AD_REFERENCE_Kathmandu 0 1767009600000 1766750400000 _))))
            _).
  - lia.
  - reflexivity.
Defined.


(** X15. From seven up to 28 days ago, the shared library answers the fixed
    "last week" phrase below 14 days and then the whole weeks (2 or 3) with
    "weeks ago"; the web and the mobile copy have no week bucket and answer
    the full-style date of [adToBS]. *)
Theorem relative_time_weeks_bucket
    (DATA : gmap Z (list Z)) (MONTHS : list jsstring) (REF : Z)
    (fuel : nat) (now date : Z) :
  604800000 <= now - date < 2419200000 ->
  Shared.getRelativeTimeNepali DATA MONTHS REF fuel now date
  = Ret (if now - date <? 1209600000 then phrase_last_week
         else toNepaliDigitsNum ((now - date) / 86400000 / 7)
              ++ phrase_weeks_ago)
  /\ (1209600000 <= now - date -> 2 <= (now - date) / 86400000 / 7 <= 3)
  /\ Web.getRelativeTimeNepali REF fuel now date
     = run_bind (Web.adToBS REF fuel date)
         (fun bs => Ret (Web.formatBSDate bs Web.full))
  /\ Mobile.formatRelativeTime REF fuel now date
     = run_bind (Mobile.adToBS REF fuel date)
         (fun bs => Ret (Mobile.formatBSDate bs)).
Proof.
  intros H.
  assert (Hd : 7 <= (now - date) / 86400000 < 28
               /\ (now - date < 1209600000 ->
                   (now - date) / 86400000 / 7 = 1)
               /\ (1209600000 <= now - date ->
                   2 <= (now - date) / 86400000 / 7 <= 3))
    by (Z.div_mod_to_equations; lia).
  destruct Hd as (Hd & Hw1 & Hw2).
  rewrite shared_relative_buckets, web_relative_buckets,
    mobile_relative_buckets. cbv zeta.
  repeat split; try (apply Hw2; assumption); decide_tests; reflexivity.
Qed.

Lemma relative_time_weeks_bucket_witness :
  Shared.getRelativeTimeNepali Web.BS_CALENDAR_DATA Web.BS_MONTHS
    AD_REFERENCE_Kathmandu 0 1767009600000 1766232000000
  = Ret phrase_last_week.
Proof.
  refine (eq_trans
            (proj1 (relative_time_weeks_bucket Web.BS_CALENDAR_DATA
                      Web.BS_MONTHS AD_REFERENCE_Kathmandu 0
                      1767009600000 1766232000000 _)) _).
  - lia.
  - reflexivity.
Defined.

(** X16. From 28 up to 30 days ago, the shared library answers
    "0 months ago": four whole weeks are past the week buckets, and the month
    count by 30 days is still 0, which is neither 1 nor 12 or more. *)
Theorem relative_time_zero_months
    (DATA : gmap Z (list Z)) (MONTHS : list jsstring) (REF : Z)
    (fuel : nat) (now date : Z) :
  2419200000 <= now - date < 2592000000 ->
  Shared.getRelativeTimeNepali DATA MONTHS REF fuel now date
  = Ret ([2406%N] ++ phrase_months_ago).
Proof.
  intros H.
  assert (Hd : 28 <= (now - date) / 86400000 < 30
               /\ (now - date) / 86400000 / 7 = 4
               /\ (now - date) / 86400000 / 30 = 0)
    by (Z.div_mod_to_equations; lia).
  destruct Hd as (Hd & Hw & Hm).
  rewrite shared_relative_buckets. cbv zeta.
  rewrite Hw, Hm. decide_tests. reflexivity.
Qed.

Lemma relative_time_zero_months_witness :
  Shared.getRelativeTimeNepali Web.BS_CALENDAR_DATA Web.BS_MONTHS
    AD_REFERENCE_Kathmandu 0 1767009600000 (1767009600000 - 29 * 86400000)
  = Ret ([2406%N] ++ phrase_months_ago).
Proof.
  apply relative_time_zero_months. lia.
Defined.

(** X17. From 30 up to 360 days ago, the shared library answers the fixed
    "last month" phrase below 60 days and then the whole 30-day months
    (2..11) with "months ago". *)
Theorem relative_time_months_bucket
    (DATA : gmap Z (list Z)) (MONTHS : list jsstring) (REF : Z)
    (fuel : nat) (now date : Z) :
  2592000000 <= now - date < 31104000000 ->
  Shared.getRelativeTimeNepali DATA MONTHS REF fuel now date
  = Ret (if now - date <? 5184000000 then phrase_last_month
         else toNepaliDigitsNum ((now - date) / 86400000 / 30)
              ++ phrase_months_ago)
  /\ (5184000000 <= now - date -> 2 <= (now - date) / 86400000 / 30 <= 11).
Proof.
  intros H.
  assert (Hd : 30 <= (now - date) / 86400000 < 360
               /\ 4 <= (now - date) / 86400000 / 7
               /\ (now - date < 5184000000 ->
                   (now - date) / 86400000 / 30 = 1)
               /\ (5184000000 <= now - date ->
                   2 <= (now - date) / 86400000 / 30 <= 11))
    by (Z.div_mod_to_equations; lia).
  destruct Hd as (Hd & Hw & Hm1 & Hm2).
  rewrite shared_relative_buckets. cbv zeta.
  split; [| exact Hm2]. decide_tests; reflexivity.
Qed.

Lemma relative_time_months_bucket_witness :
  Shared.getRelativeTimeNepali Web.BS_CALENDAR_DATA Web.BS_MONTHS
    AD_REFERENCE_Kathmandu 0 1767009600000 (1767009600000 - 100 * 86400000)
  = Ret ([2409%N] ++ phrase_months_ago).
Proof.
  refine (eq_trans
            (proj1 (relative_time_months_bucket Web.BS_CALENDAR_DATA
                      Web.BS_MONTHS AD_REFERENCE_Kathmandu 0
                      1767009600000 (1767009600000 - 100 * 86400000) _)) _).
  - lia.
  - reflexivity.
Defined.

Lemma shared_relative_returns DATA MONTHS REF fuel now date :
  table_positive DATA ->
  (Z.to_nat (Z.abs (day_index REF date)) <= fuel)%nat ->
  exists s, Shared.getRelativeTimeNepali DATA MONTHS REF fuel now date = Ret s.
Proof.
  intros Hpos Hf. unfold Shared.getRelativeTimeNepali.
  rewrite (shared_adToBS_walk DATA REF Hpos fuel date Hf). simpl run_bind.
  repeat match goal with
         | |- context [if ?b then _ else _] => destruct b
         end; eexists; reflexivity.
Qed.

(** X18. The relative-time functions always return: with a table of positive
    month lengths and fuel for the days between the timestamp and the
    reference, the shared library, the web copy and the mobile copy end with a
    string; and in the shared library a timestamp after [now] or 360 days or
    more before it gives the full-style date of [adToBS]. *)
Theorem relative_time_returns
    (DATA : gmap Z (list Z)) (MONTHS : list jsstring) (REF : Z)
    (fuel : nat) (now date : Z) :
  table_positive DATA ->
  (Z.to_nat (Z.abs (day_index REF date)) <= fuel)%nat ->
  (exists s,
      Shared.getRelativeTimeNepali DATA MONTHS REF fuel now date = Ret s)
  /\ (exists s, Web.getRelativeTimeNepali REF fuel now date = Ret s)
  /\ (exists s, Mobile.formatRelativeTime REF fuel now date = Ret s)
  /\ (now - date < 0 \/ 31104000000 <= now - date ->
      exists d,
        Shared.adToBS DATA REF fuel date = Ret d /\
        Shared.getRelativeTimeNepali DATA MONTHS REF fuel now date
        = Ret (Shared.formatBSDate MONTHS d Shared.full)).
Proof.
  intros Hpos Hf. split; [apply shared_relative_returns; assumption |].
  split; [| split].
  - unfold Web.getRelativeTimeNepali.
    rewrite (web_adToBS_walk REF fuel date Hf). simpl run_bind.
    repeat match goal with
           | |- context [if ?b then _ else _] => destruct b
           end; eexists; reflexivity.
  - unfold Mobile.formatRelativeTime.
    rewrite (mobile_adToBS_walk REF fuel date Hf). simpl run_bind.
    repeat match goal with
           | |- context [if ?b then _ else _] => destruct b
           end; eexists; reflexivity.
  - intros Hold. eexists.
    split; [apply shared_adToBS_walk; assumption |].
    rewrite shared_relative_buckets. cbv zeta.
    rewrite (shared_adToBS_walk DATA REF Hpos fuel date Hf). simpl run_bind.
    destruct Hold as [Hneg | Hold]; [decide_tests; reflexivity |].
    assert (Hd : 360 <= (now - date) / 86400000
                 /\ 51 <= (now - date) / 86400000 / 7
                 /\ 12 <= (now - date) / 86400000 / 30)
      by (Z.div_mod_to_equations; lia).
    destruct Hd as (Hd & Hw & Hm). decide_tests; reflexivity.
Qed.

Lemma relative_time_returns_witness :
  exists d,
    Shared.adToBS Web.BS_CALENDAR_DATA AD_REFERENCE_Kathmandu 1000
      1767571200000 = Ret d /\
    Shared.getRelativeTimeNepali Web.BS_CALENDAR_DATA Web.BS_MONTHS
      AD_REFERENCE_Kathmandu 1000 1767009600000 1767571200000
    = Ret (Shared.formatBSDate Web.BS_MONTHS d Shared.full).
Proof.
  assert (Hp : table_positive Web.BS_CALENDAR_DATA)
    by (apply (bool_decide_unpack _); vm_compute; exact I).
  refine (proj2 (proj2 (proj2
            (relative_time_returns Web.BS_CALENDAR_DATA Web.BS_MONTHS
               AD_REFERENCE_Kathmandu 1000 1767009600000 1767571200000
               Hp _))) _).
  - apply Nat.leb_le. vm_compute. reflexivity.
  - left. lia.
Defined.


(** * Further properties of the formatter with the converter *)

(** X19. The date strings the pages show, [formatBSDate(adToBS(now))]: the
    month of a converted date is in 1..12, so the month name is an entry of
    the month table, never the empty string (shared library, for a table of
    twelve names) nor the text "undefined" (web and mobile copy). *)
Theorem current_date_string_has_month_name
    (DATA : gmap Z (list Z)) (MONTHS : list jsstring) (REF : Z)
    (fuel : nat) (now : Z) :
  table_positive DATA ->
  length MONTHS = 12%nat ->
  (Z.to_nat (Z.abs (day_index REF now)) <= fuel)%nat ->
  (exists d name,
      Shared.adToBS DATA REF fuel now = Ret d /\
      MONTHS !! Z.to_nat (month d - 1) = Some name /\
      Shared.getCurrentBSDateString DATA MONTHS REF fuel now Shared.full
      = Ret (toNepaliDigitsNum (day d) ++ [32%N] ++ name ++ [32%N]
             ++ toNepaliDigitsNum (year d)))
  /\ (exists d name,
      Web.adToBS REF fuel now = Ret d /\
      Web.BS_MONTHS !! Z.to_nat (month d - 1) = Some name /\
      Web.getCurrentBSDateString REF fuel now Web.full
      = Ret (toNepaliDigitsNum (day d) ++ [32%N] ++ name ++ [44%N; 32%N]
             ++ toNepaliDigitsNum (year d)))
  /\ (exists d name,
      Mobile.adToBS REF fuel now = Ret d /\
      Mobile.nepaliMonths !! Z.to_nat (month d - 1) = Some name /\
      Mobile.getCurrentBSDateString REF fuel now
      = Ret (toNepaliDigitsNum (day d) ++ [32%N] ++ name ++ [32%N]
             ++ toNepaliDigitsNum (year d))).
Proof.
  intros Hpos Hlen Hf. split; [| split].
  - destruct (walk_valid _ (shared_D_pos DATA Hpos) (day_index REF now))
      as [Hm _].
    destruct (js_index_defined MONTHS _ Hlen Hm) as (name & E & El).
    eexists. exists name.
    split; [apply shared_adToBS_walk; assumption |]. split; [exact El |].
    unfold Shared.getCurrentBSDateString.
    rewrite (shared_adToBS_walk DATA REF Hpos fuel now Hf). simpl run_bind.
    unfold Shared.formatBSDate. rewrite E. reflexivity.
  - destruct (walk_valid _ web_D_pos (day_index REF now)) as [Hm _].
    destruct (js_index_defined Web.BS_MONTHS _ eq_refl Hm) as (name & E & El).
    eexists. exists name.
    split; [apply web_adToBS_walk; assumption |]. split; [exact El |].
    unfold Web.getCurrentBSDateString, Web.getCurrentBSDate.
    rewrite (web_adToBS_walk REF fuel now Hf). simpl run_bind.
    unfold Web.formatBSDate. rewrite E. reflexivity.
  - destruct (walk_valid _ mobile_D_pos (day_index REF now)) as [Hm _].
    destruct (js_index_defined Mobile.nepaliMonths _ eq_refl Hm)
      as (name & E & El).
    eexists. exists name.
    split; [apply mobile_adToBS_walk; assumption |]. split; [exact El |].
    unfold Mobile.getCurrentBSDateString.
    rewrite (mobile_adToBS_walk REF fuel now Hf). simpl run_bind.
    unfold Mobile.formatBSDate. rewrite E. reflexivity.
Qed.

Lemma current_date_string_has_month_name_witness :
  exists d name,
    Web.adToBS AD_REFERENCE_Kathmandu 1000 1766966400000 = Ret d /\
    Web.BS_MONTHS !! Z.to_nat (month d - 1) = Some name /\
    Web.getCurrentBSDateString AD_REFERENCE_Kathmandu 1000 1766966400000
      Web.full
    = Ret (toNepaliDigitsNum (day d) ++ [32%N] ++ name ++ [44%N; 32%N]
           ++ toNepaliDigitsNum (year d)).
Proof.
  assert (Hp : table_positive Web.BS_CALENDAR_DATA)
    by (apply (bool_decide_unpack _); vm_compute; exact I).
  refine (proj1 (proj2
            (current_date_string_has_month_name Web.BS_CALENDAR_DATA
               Web.BS_MONTHS AD_REFERENCE_Kathmandu 1000 1766966400000
               Hp _ _))).
  - reflexivity.
  - apply Nat.leb_le. vm_compute. reflexivity.
Defined.

Lemma next_day_year D c :
  year c <= year (next_day D c) <= year c + 1.
Proof.
  unfold next_day.
  destruct (D (year c) (month c) <? day c + 1); [| simpl; lia].
  destruct (12 <? month c + 1); simpl; lia.
Qed.

Lemma iter_next_year D (k : nat) c :
  year c <= year (Nat.iter k (next_day D) c) <= year c + Z.of_nat k.
Proof.
  induction k as [| k IH]; simpl; [lia |].
  pose proof (next_day_year D (Nat.iter k (next_day D) c)). lia.
Qed.

Lemma next_day_day D c :
  1 <= day c -> 1 <= day (next_day D c) <= day c + 1.
Proof.
  intros H. unfold next_day.
  destruct (D (year c) (month c) <? day c + 1); [| simpl; lia].
  destruct (12 <? month c + 1); simpl; lia.
Qed.

Lemma iter_next_day D (k : nat) c :
  1 <= day c ->
  1 <= day (Nat.iter k (next_day D) c) <= day c + Z.of_nat k.
Proof.
  intros H. induction k as [| k IH]; simpl; [lia |].
  pose proof (next_day_day D (Nat.iter k (next_day D) c) ltac:(lia)). lia.
Qed.

Lemma parseShort_short_style MONTHS y m d :
  0 <= y <= 9007199254740992 ->
  0 <= m <= 9007199254740992 ->
  0 <= d <= 9007199254740992 ->
  parseShort (Shared.formatBSDate MONTHS (mkBSDate y m d) Shared.short)
  = Some (mkBSDate y m d).
Proof.
  intros Hy Hm Hd.
  unfold Shared.formatBSDate, parseShort, toNepaliDigitsNum.
  cbn [year month day app].
  destruct (toString_nonneg y Hy) as (uy & Ey & _ & _).
  destruct (toString_nonneg m Hm) as (um & Em & _ & _).
  destruct (toString_nonneg d Hd) as (ud & Ed & _ & _).
  rewrite split_on_app
    by (apply toNepaliDigits_no_separator; rewrite Ey;
        apply uint_chars_digits).
  rewrite split_on_app
    by (apply toNepaliDigits_no_separator, padStart_digits; rewrite Em;
        apply uint_chars_digits).
  rewrite split_on_no_separator
    by (apply toNepaliDigits_no_separator, padStart_digits; rewrite Ed;
        apply uint_chars_digits).
  rewrite !parseDecimal_padded by lia.
  change (toString y) with (padStart 0 48%N (toString y)).
  rewrite parseDecimal_padded by lia. reflexivity.
Qed.

(** X20. [formatDualDate] of the shared library, for a timestamp on or after
    the reference instant: it returns a record whose [bs] is the full style
    and whose [bsShort] is the short style of the same date [adToBS(date)];
    that date has a year from 2080 on, and splitting [bsShort] on '-' and
    undoing the digit localization reads it back. *)
Theorem formatDualDate_short_reads_back
    (DATA : gmap Z (list Z)) (MONTHS : list jsstring) (REF : Z)
    (WEEKDAYS AD_MONTHS : list jsstring)
    (getDate getMonth getFullYear getDay : Z -> Z)
    (fuel : nat) (now date : Z) :
  table_positive DATA ->
  0 <= date - REF < 10 ^ 21 ->
  (Z.to_nat (Z.abs (day_index REF date)) <= fuel)%nat ->
  exists dual d,
    Shared.formatDualDate DATA MONTHS REF WEEKDAYS AD_MONTHS
      getDate getMonth getFullYear getDay fuel now date = Ret dual /\
    Shared.adToBS DATA REF fuel date = Ret d /\
    2080 <= year d <= 2080 + day_index REF date /\
    Shared.bs dual = Shared.formatBSDate MONTHS d Shared.full /\
    Shared.bsShort dual = Shared.formatBSDate MONTHS d Shared.short /\
    parseShort (Shared.bsShort dual) = Some d.
Proof.
  intros Hpos Hrange Hf.
  pose proof (shared_D_pos DATA Hpos) as HD.
  assert (Hn : 0 <= day_index REF date)
    by (unfold day_index; apply Z.div_pos; [lia | reflexivity]).
  destruct (shared_relative_returns DATA MONTHS REF fuel now date Hpos Hf)
    as [rel Hrel].
  pose proof (walk_valid _ HD (day_index REF date)) as [Hm Hd].
  pose proof (iter_next_year (Shared.getDaysInBSMonth DATA)
                (Z.to_nat (day_index REF date)) BS_REFERENCE) as Hy.
  rewrite <- walk_nonneg in Hy by exact Hn. simpl in Hy.
  pose proof (iter_next_day (Shared.getDaysInBSMonth DATA)
                (Z.to_nat (day_index REF date)) BS_REFERENCE ltac:(simpl; lia))
    as Hdy.
  rewrite <- walk_nonneg in Hdy by exact Hn. simpl in Hdy.
  pose proof (day_index_floor REF date) as Hfl. unfold msPerDay in Hfl.
  eexists. exists (walk (Shared.getDaysInBSMonth DATA) (day_index REF date)).
  split.
  { unfold Shared.formatDualDate.
    rewrite (shared_adToBS_walk DATA REF Hpos fuel date Hf). simpl run_bind.
    rewrite Hrel. simpl run_bind. reflexivity. }
  split; [apply shared_adToBS_walk; assumption |].
  split; [lia |]. split; [reflexivity |]. split; [reflexivity |].
  cbn [Shared.bsShort].
  destruct (walk (Shared.getDaysInBSMonth DATA) (day_index REF date))
    as [y m d]; cbn [year month day] in *.
  apply (parseShort_short_style MONTHS); lia.
Qed.

Lemma formatDualDate_short_reads_back_witness :
  exists dual d,
    Shared.formatDualDate Web.BS_CALENDAR_DATA Web.BS_MONTHS
      AD_REFERENCE_Kathmandu [] [] (fun _ => 0) (fun _ => 0) (fun _ => 0)
      (fun _ => 0) 1000 1767009600000 1766966400000 = Ret dual /\
    Shared.adToBS Web.BS_CALENDAR_DATA AD_REFERENCE_Kathmandu 1000
      1766966400000 = Ret d /\
    parseShort (Shared.bsShort dual) = Some d.
Proof.
  assert (Hp : table_positive Web.BS_CALENDAR_DATA)
    by (apply (bool_decide_unpack _); vm_compute; exact I).
  destruct (formatDualDate_short_reads_back Web.BS_CALENDAR_DATA
              Web.BS_MONTHS AD_REFERENCE_Kathmandu [] []
              (fun _ => 0) (fun _ => 0) (fun _ => 0) (fun _ => 0)
              1000 1767009600000 1766966400000 Hp)
    as (dual & d & H1 & H2 & _ & _ & _ & H3).
  - unfold AD_REFERENCE_Kathmandu. lia.
  - apply Nat.leb_le. vm_compute. reflexivity.
  - exists dual, d. repeat split; assumption.
Defined.
